(** * CTF-WSI spider: a shallow embedding of [spider/app/spider.py]

    The crawler discovers the latest write-up identifier of the origin site,
    computes the identifiers that are not stored yet, resolves each of them
    into a record and stores it.  The development follows the source file
    top-down: Python values and string methods, the [requests] responses,
    the [BeautifulSoup] tree with the queries the spider uses, the functions
    of the script, and then the properties. *)

From Stdlib Require Import ZArith List String Ascii Bool Lia Sorted DecimalString.
From Stdlib Require DecimalZ DecimalPos.
Import ListNotations.

Set Warnings "-register-all".

Local Open Scope string_scope.
Local Open Scope list_scope.
Local Open Scope Z_scope.

(* ===================================================================== *)
(** ** Python strings                                                     *)
(* ===================================================================== *)

(** A [str] or [bytes] value is a [string]; the methods below are the ones
    the script calls, with Python's names. *)
Module Str.

(** [s.startswith(p)] *)
Definition startswith (s p : string) : bool := String.prefix p s.

(** [s.endswith(p)] *)
Definition endswith (s p : string) : bool :=
  let n := String.length s in
  let m := String.length p in
  (m <=? n)%nat && String.eqb (String.substring (n - m) m s) p.

(** [sub in s] *)
Fixpoint contains (sub s : string) : bool :=
  String.prefix sub s
  || match s with
     | EmptyString => false
     | String _ s' => contains sub s'
     end.

(** [c in chars] for one character *)
Fixpoint mem (c : ascii) (chars : string) : bool :=
  match chars with
  | EmptyString => false
  | String d r => Ascii.eqb c d || mem c r
  end.

Fixpoint lstrip_chars (chars s : string) : string :=
  match s with
  | EmptyString => EmptyString
  | String c s' => if mem c chars then lstrip_chars chars s' else s
  end.

Fixpoint rstrip_chars (chars s : string) : string :=
  match s with
  | EmptyString => EmptyString
  | String c s' =>
      match rstrip_chars chars s' with
      | EmptyString => if mem c chars then EmptyString else String c EmptyString
      | r => String c r
      end
  end.

(** [s.strip(chars)] *)
Definition strip_chars (chars s : string) : string :=
  rstrip_chars chars (lstrip_chars chars s).

(** The characters below code point 256 for which [str.isspace] holds:
    9..13, 28..32, 133 and 160. *)
Definition whitespace : string :=
  String (ascii_of_nat 9) (String (ascii_of_nat 10) (String (ascii_of_nat 11)
 (String (ascii_of_nat 12) (String (ascii_of_nat 13) (String (ascii_of_nat 28)
 (String (ascii_of_nat 29) (String (ascii_of_nat 30) (String (ascii_of_nat 31)
 (String (ascii_of_nat 32) (String (ascii_of_nat 133)
 (String (ascii_of_nat 160) EmptyString))))))))))).

(** [s.strip()] *)
Definition strip (s : string) : string := strip_chars whitespace s.

(** [s.replace(old, new)], scanning left to right; [skip] counts the
    characters of a matched [old] that are still to be passed over. *)
Fixpoint replace_go (old new : string) (skip : nat) (s : string) : string :=
  match s with
  | EmptyString => EmptyString
  | String c s' =>
      match skip with
      | S k => replace_go old new k s'
      | O =>
          if String.prefix old s
          then new ++ replace_go old new (String.length old - 1) s'
          else String c (replace_go old new O s')
      end
  end.

Fixpoint intersperse (new s : string) : string :=
  match s with
  | EmptyString => new
  | String c s' => new ++ String c (intersperse new s')
  end.

Definition replace (s old new : string) : string :=
  match old with
  | EmptyString => intersperse new s
  | _ => replace_go old new O s
  end.

(** [s.split(sep)] for a non-empty [sep] (an empty one raises
    [ValueError]; the script only splits on ["#"] and ["/"]). *)
Fixpoint split_go (sep : string) (skip : nat) (cur s : string) : list string :=
  match s with
  | EmptyString => [cur]
  | String c s' =>
      match skip with
      | S k => split_go sep k cur s'
      | O =>
          if String.prefix sep s
          then cur :: split_go sep (String.length sep - 1) EmptyString s'
          else split_go sep O (cur ++ String c EmptyString) s'
      end
  end.

Definition split (s sep : string) : list string := split_go sep O EmptyString s.

(** [sep.join(l)] *)
Definition join (sep : string) (l : list string) : string := String.concat sep l.

(** ASCII lower-casing, as [requests] uses for header names. *)
Definition lower_ascii (c : ascii) : ascii :=
  let n := nat_of_ascii c in
  if ((65 <=? n) && (n <=? 90))%nat then ascii_of_nat (n + 32) else c.

Fixpoint lower (s : string) : string :=
  match s with
  | EmptyString => EmptyString
  | String c s' => String (lower_ascii c) (lower s')
  end.

Definition is_digit (c : ascii) : bool :=
  let n := nat_of_ascii c in ((48 <=? n) && (n <=? 57))%nat.

Definition digit_value (c : ascii) : Z := Z.of_nat (nat_of_ascii c) - 48.

(** Digits with single underscores between them, as [int] accepts;
    [prev] tells whether the previous character was a digit. *)
Fixpoint digits_go (acc : Z) (prev : bool) (s : string) : option Z :=
  match s with
  | EmptyString => if prev then Some acc else None
  | String c s' =>
      if is_digit c then digits_go (10 * acc + digit_value c) true s'
      else if Ascii.eqb c "_" && prev then digits_go acc false s'
      else None
  end.

(** The blanks that [int] passes over around a number: those of ASCII
    (9..13 and 32) and, below code point 256, the two outside ASCII (133
    and 160).  The separators 28..31, which [strip] removes, are not among
    them. *)
Definition int_whitespace : string :=
  String (ascii_of_nat 9) (String (ascii_of_nat 10) (String (ascii_of_nat 11)
 (String (ascii_of_nat 12) (String (ascii_of_nat 13) (String (ascii_of_nat 32)
 (String (ascii_of_nat 133) (String (ascii_of_nat 160) EmptyString))))))).

(** The number of digits in a string. *)
Fixpoint count_digits (s : string) : Z :=
  match s with
  | EmptyString => 0
  | String c s' => (if is_digit c then 1 else 0) + count_digits s'
  end.

(** The digits of a number, refused when there are more than 4300 of them
    (the interpreter's bound on the conversion of a string to an integer). *)
Definition bounded_digits (s : string) : option Z :=
  if count_digits s >? 4300 then None else digits_go 0 false s.

(** [int(s)] in base ten on the characters modelled here: surrounding
    blanks, an optional sign, digits.  [None] is [ValueError]. *)
Definition to_int (s : string) : option Z :=
  match strip_chars int_whitespace s with
  | String "-" r => option_map Z.opp (bounded_digits r)
  | String "+" r => bounded_digits r
  | r => bounded_digits r
  end.

End Str.

(* ===================================================================== *)
(** ** Python values and exceptions                                       *)
(* ===================================================================== *)

(** The values that reach a comparison or an addition in the script. *)
Inductive pyval : Type :=
| PyNone
| PyInt (n : Z)
| PyStr (s : string)
| PyBytes (b : string).

(** The exceptions the script can meet; all of them derive from
    [Exception].  [ConnectTimeout], [ConnectionError] and
    [RequestException] (any other failure of [requests]) come from the
    network, the others from the interpreter. *)
Inductive exn : Type :=
| ConnectTimeout
| ConnectionError
| RequestException
| TypeError
| AttributeError
| KeyError
| ValueError.

Inductive result (A : Type) : Type :=
| Ok (a : A)
| Raise (e : exn).
Arguments Ok {A} a.
Arguments Raise {A} e.

(** [a == b]: values of different types are never equal. *)
Definition py_eq (a b : pyval) : bool :=
  match a, b with
  | PyNone, PyNone => true
  | PyInt x, PyInt y => x =? y
  | PyStr x, PyStr y => String.eqb x y
  | PyBytes x, PyBytes y => String.eqb x y
  | _, _ => false
  end.

(** [a > b]: ordering is defined inside a type only; across types, and on
    [None], Python 3 raises [TypeError]. *)
Definition py_gt (a b : pyval) : result bool :=
  match a, b with
  | PyInt x, PyInt y => Ok (x >? y)
  | PyStr x, PyStr y => Ok (match String.compare x y with Gt => true | _ => false end)
  | PyBytes x, PyBytes y => Ok (match String.compare x y with Gt => true | _ => false end)
  | _, _ => Raise TypeError
  end.

(** [a + b] *)
Definition py_add (a b : pyval) : result pyval :=
  match a, b with
  | PyInt x, PyInt y => Ok (PyInt (x + y))
  | PyStr x, PyStr y => Ok (PyStr (x ++ y))
  | PyBytes x, PyBytes y => Ok (PyBytes (x ++ y))
  | _, _ => Raise TypeError
  end.

(** [range(lo, hi)] *)
Definition py_range (lo hi : Z) : list Z :=
  map (fun k => lo + Z.of_nat k) (seq 0 (Z.to_nat (hi - lo))).

(** [x in l] for a list of integers *)
Definition py_in (x : Z) (l : list Z) : bool := existsb (Z.eqb x) l.

(** A dictionary with string keys, as an association list read from the
    front. *)
Fixpoint lookup {A : Type} (k : string) (d : list (string * A)) : option A :=
  match d with
  | [] => None
  | (k', v) :: r => if String.eqb k k' then Some v else lookup k r
  end.

(* ===================================================================== *)
(** ** requests                                                           *)
(* ===================================================================== *)

Record Response : Type := mkResponse {
  status_code : Z;
  headers : list (string * string);
  content : string
}.

(** [response.headers[key]]: the mapping ignores the case of the key. *)
Fixpoint header (key : string) (h : list (string * string)) : option string :=
  match h with
  | [] => None
  | (k, v) :: r =>
      if String.eqb (Str.lower k) (Str.lower key) then Some v else header key r
  end.

(** [iter_slices(content, n)]: the pieces of [content], [n] bytes each. *)
Fixpoint iter_slices (fuel : nat) (n : nat) (s : string) : list string :=
  match fuel with
  | O => []
  | S fuel' =>
      match s with
      | EmptyString => []
      | _ => String.substring 0 n s
             :: iter_slices fuel' n (String.substring n (String.length s - n) s)
      end
  end.

(** Iterating a [Response] yields its body in pieces of 128 bytes
    ([Response.__iter__] is [iter_content(128)]). *)
Definition response_iter (r : Response) : list pyval :=
  map PyBytes (iter_slices (String.length (content r)) 128 (content r)).

(** [key in response]: [Response] has no [__contains__], so the test
    walks the iteration and compares each piece with [key]. *)
Definition response_contains (key : pyval) (r : Response) : bool :=
  existsb (fun piece => py_eq piece key) (response_iter r).

(** What the script asks of the network: [requests.get] with its
    [timeout] and [verify] arguments, and [requests.head]. *)
Inductive request : Type :=
| Get (url : string) (timeout : option Z) (verify : bool)
| Head (url : string).

(* ===================================================================== *)
(** ** BeautifulSoup                                                      *)
(* ===================================================================== *)

(** A parsed document.  [Text] is a plain [NavigableString]; [Comment]
    stands for the strings that no [.text] shows (comments, declarations);
    [Special c s] is a string of the class the parser keeps for what is
    inside a [c] element, where [c] is one of [string_containers] below;
    [Tag] is an element with its attribute dictionary and its contents.  A
    [soup] is the contents of the [BeautifulSoup] object. *)
Inductive node : Type :=
| Text (s : string)
| Comment (s : string)
| Special (container : string) (s : string)
| Tag (name : string) (attrs : list (string * string)) (contents : list node).

Definition soup : Type := list node.

Definition is_tag (n : node) : bool :=
  match n with Tag _ _ _ => true | _ => false end.

(** The elements whose strings have a class of their own
    ([RubyTextString], [RubyParenthesisString], [Stylesheet], [Script],
    [TemplateString]). *)
Definition string_containers : list string :=
  ["rt"; "rp"; "style"; "script"; "template"].

(** The class of strings that the [.text] of an element named [nm]
    collects: the class of the element if it is a string container,
    [None], the plain strings, otherwise. *)
Definition interesting (nm : string) : option string :=
  if existsb (String.eqb nm) string_containers then Some nm else None.

(** The strings of the class [want] at and below [n], concatenated. *)
Fixpoint strings (want : option string) (n : node) : string :=
  match n with
  | Text s => match want with None => s | Some _ => EmptyString end
  | Comment _ => EmptyString
  | Special c s =>
      match want with
      | Some c' => if String.eqb c c' then s else EmptyString
      | None => EmptyString
      end
  | Tag _ _ cs => String.concat EmptyString (map (strings want) cs)
  end.

(** [element.text]: the strings below the element that are of the class
    the element collects, concatenated. *)
Definition text (n : node) : string :=
  match n with
  | Tag nm _ cs => String.concat EmptyString (map (strings (interesting nm)) cs)
  | _ => strings None n
  end.

(** [parser.text]: the [BeautifulSoup] object collects the plain strings. *)
Definition soup_text (d : soup) : string :=
  String.concat EmptyString (map (strings None) d).

(** [element.attrs] of a result of [select] *)
Definition attrs_of (n : node) : list (string * string) :=
  match n with Tag _ a _ => a | _ => [] end.

(** *** CSS selection *)

(** Where an element sits: its name and attributes, its position among the
    element children of its parent (from 1), its parent and the element
    just before it. *)
Inductive place : Type :=
| Place (name : string) (attrs : list (string * string)) (index : nat)
        (parent : option place) (previous : option place).

Definition place_name (p : place) : string := let (n, _, _, _, _) := p in n.
Definition place_attrs (p : place) : list (string * string) := let (_, a, _, _, _) := p in a.
Definition place_index (p : place) : nat := let (_, _, i, _, _) := p in i.
Definition place_parent (p : place) : option place := let (_, _, _, u, _) := p in u.
Definition place_previous (p : place) : option place := let (_, _, _, _, v) := p in v.

Fixpoint ancestors (p : place) : list place :=
  match p with
  | Place _ _ _ (Some u) _ => u :: ancestors u
  | Place _ _ _ None _ => []
  end.

(** The elements at and below [n] in document order, each with its place. *)
Fixpoint located (up : option place) (before : option place) (idx : nat) (n : node)
  : list (place * node) :=
  match n with
  | Tag nm a cs =>
      let here := Place nm a idx up before in
      (here, n)
      :: (fix children (l : list node) (prev : option place) (i : nat)
            : list (place * node) :=
            match l with
            | [] => []
            | x :: r =>
                match x with
                | Tag nm' a' _ =>
                    located (Some here) prev i x
                    ++ children r (Some (Place nm' a' i (Some here) prev)) (S i)
                | _ => children r prev i
                end
            end) cs None 1%nat
  | _ => []
  end.

(** The [BeautifulSoup] object is itself an element, named [[document]],
    without attributes; [select] looks at what is below it. *)
Definition document (d : soup) : node := Tag "[document]" [] d.

Definition elements (d : soup) : list (place * node) :=
  tl (located None None 1%nat (document d)).

(** The words of a [class] attribute. *)
Fixpoint words_go (cur : string) (s : string) : list string :=
  match s with
  | EmptyString => match cur with EmptyString => [] | _ => [cur] end
  | String c s' =>
      if Str.mem c Str.whitespace
      then match cur with
           | EmptyString => words_go EmptyString s'
           | _ => cur :: words_go EmptyString s'
           end
      else words_go (cur ++ String c EmptyString) s'
  end.

Definition classes (a : list (string * string)) : list string :=
  match lookup "class" a with
  | Some v => words_go EmptyString v
  | None => []
  end.

(** The selectors of the script are made of type, class, id and
    [:nth-child(n)] tests, joined by the descendant and the next-sibling
    combinators. *)
Inductive simple : Type :=
| Type_ (name : string)
| Class (name : string)
| Id (name : string)
| NthChild (n : nat).

Inductive combinator : Type :=
| Descendant
| NextSibling.

(** A selector read from the right: the compound the element itself has to
    match, then each combinator with the compound to its left. *)
Record selector : Type := mkSelector {
  subject : list simple;
  leftwards : list (combinator * list simple)
}.

Definition matches_simple (p : place) (x : simple) : bool :=
  match x with
  | Type_ t => String.eqb (place_name p) t
  | Class c => existsb (String.eqb c) (classes (place_attrs p))
  | Id i => match lookup "id" (place_attrs p) with
            | Some v => String.eqb v i
            | None => false
            end
  | NthChild n => Nat.eqb (place_index p) n
  end.

Definition matches_compound (p : place) (c : list simple) : bool :=
  forallb (matches_simple p) c.

Fixpoint matches_leftwards (l : list (combinator * list simple)) (p : place) : bool :=
  match l with
  | [] => true
  | (NextSibling, c) :: l' =>
      match place_previous p with
      | Some q => matches_compound q c && matches_leftwards l' q
      | None => false
      end
  | (Descendant, c) :: l' =>
      existsb (fun q => matches_compound q c && matches_leftwards l' q) (ancestors p)
  end.

Definition matches (s : selector) (p : place) : bool :=
  matches_compound p (subject s) && matches_leftwards (leftwards s) p.

(** [parser.select(s)] and [parser.select_one(s)] *)
Definition select (s : selector) (d : soup) : list node :=
  map snd (filter (fun pn => matches s (fst pn)) (elements d)).

Definition select_one (s : selector) (d : soup) : option node :=
  hd_error (select s d).

(** [parser.findAll()], [parser.findAll(name)] are used by the script only
    to visit elements and change the tree; the three loops are given by
    what they leave of the tree. *)

(** [for anchor in parser.findAll("a"): anchor.replaceWithChildren()] *)
Fixpoint replace_anchors (n : node) : list node :=
  match n with
  | Tag nm a cs =>
      let cs' := flat_map replace_anchors cs in
      if String.eqb nm "a" then cs' else [Tag nm a cs']
  | _ => [n]
  end.

(** [for line_break in parser.findAll("br"): line_break.replaceWith("\n")] *)
Fixpoint replace_breaks (n : node) : node :=
  match n with
  | Tag nm a cs =>
      if String.eqb nm "br" then Text (String (ascii_of_nat 10) EmptyString)
      else Tag nm a (map replace_breaks cs)
  | _ => n
  end.

(** ["src" in element.attrs and element["src"].startswith("data")] *)
Definition embeds_data (a : list (string * string)) : bool :=
  match lookup "src" a with
  | Some v => Str.startswith v "data"
  | None => false
  end.

Fixpoint sequence {A : Type} (l : list (result A)) : result (list A) :=
  match l with
  | [] => Ok []
  | Ok a :: r => match sequence r with Ok r' => Ok (a :: r') | Raise e => Raise e end
  | Raise e :: _ => Raise e
  end.

(** [for element in parser.findAll():
       if "src" in element.attrs and element["src"].startswith("data"):
           element.decompose()]
    The elements to visit are listed before the loop starts.  [decompose]
    takes the element out of the tree and empties it and everything below
    it, attribute dictionary included; an element below it is still in the
    list, and when the loop reaches it [element.attrs] is [None], so the
    membership test raises [TypeError]. *)
Fixpoint decompose_data (n : node) : result (list node) :=
  match n with
  | Tag nm a cs =>
      if embeds_data a
      then if existsb is_tag cs then Raise TypeError else Ok []
      else match sequence (map decompose_data cs) with
           | Ok cs' => Ok [Tag nm a (List.concat cs')]
           | Raise e => Raise e
           end
  | _ => Ok [n]
  end.

Definition decompose_all (d : soup) : result soup :=
  match sequence (map decompose_data d) with
  | Ok d' => Ok (List.concat d')
  | Raise e => Raise e
  end.

(** The selectors of the script. *)

(** [".page-header+ .table-striped tr:nth-child(2) td:nth-child(4) a"] *)
Definition sel_latest : selector :=
  mkSelector [Type_ "a"]
    [(Descendant, [Type_ "td"; NthChild 4]);
     (Descendant, [Type_ "tr"; NthChild 2]);
     (Descendant, [Class "table-striped"]);
     (NextSibling, [Class "page-header"])].

(** ["#readme .Link--primary"] *)
Definition sel_readme : selector :=
  mkSelector [Class "Link--primary"] [(Descendant, [Id "readme"])].

(** [".js-navigation-open.Link--primary"] *)
Definition sel_navigation : selector :=
  mkSelector [Class "js-navigation-open"; Class "Link--primary"] [].

(** [".breadcrumb li:nth-child(3) a"] *)
Definition sel_ctf : selector :=
  mkSelector [Type_ "a"]
    [(Descendant, [Type_ "li"; NthChild 3]); (Descendant, [Class "breadcrumb"])].

(** [".divider+ li a"] *)
Definition sel_challenge : selector :=
  mkSelector [Type_ "a"]
    [(Descendant, [Type_ "li"]); (NextSibling, [Class "divider"])].

(** ["h2+ a"] *)
Definition sel_author : selector :=
  mkSelector [Type_ "a"] [(NextSibling, [Type_ "h2"])].

(** [".page-header a+ a"] *)
Definition sel_team : selector :=
  mkSelector [Type_ "a"]
    [(NextSibling, [Type_ "a"]); (Descendant, [Class "page-header"])].

(** [".label-info"] *)
Definition sel_tags : selector := mkSelector [Class "label-info"] [].

(** ["#user_rating"] *)
Definition sel_rating : selector := mkSelector [Id "user_rating"] [].

(** [".well a"] *)
Definition sel_well : selector :=
  mkSelector [Type_ "a"] [(Descendant, [Class "well"])].

(** ["#id_description"] *)
Definition sel_description : selector := mkSelector [Id "id_description"] [].

(* ===================================================================== *)
(** ** The store                                                          *)
(* ===================================================================== *)

(** [rating] is the empty string in the record of a deleted write-up and a
    float otherwise. *)
Inductive rating_value (F : Type) : Type :=
| RatingStr (s : string)
| RatingFloat (f : F).
Arguments RatingStr {F} s.
Arguments RatingFloat {F} f.

(** The dictionary that [scrape_writeup_info] returns, key by key. *)
Record writeup (F : Type) : Type := mkWriteup {
  w_id : Z;
  w_ctf : string;
  w_name : string;
  w_tags : string;
  w_author : string;
  w_team : string;
  w_rating : rating_value F;
  w_ctftime : string;
  w_url : string;
  w_ctftime_content : string;
  w_blog_content : string
}.
Arguments mkWriteup {F}.
Arguments w_id {F}.
Arguments w_ctf {F}.
Arguments w_name {F}.
Arguments w_tags {F}.
Arguments w_author {F}.
Arguments w_team {F}.
Arguments w_rating {F}.
Arguments w_ctftime {F}.
Arguments w_url {F}.
Arguments w_ctftime_content {F}.
Arguments w_blog_content {F}.

(** [mongo[DATABASE][COLLECTION]]: whether the database is there yet, and
    the documents of the collection in insertion order. *)
Record mongo (F : Type) : Type := mkMongo {
  database_exists : bool;
  documents : list (writeup F)
}.
Arguments mkMongo {F}.
Arguments database_exists {F}.
Arguments documents {F}.

(** What a run can change: the requests sent so far, oldest first, and the
    store. *)
Record state (F : Type) : Type := mkState {
  trace : list request;
  db : mongo F
}.
Arguments mkState {F}.
Arguments trace {F}.
Arguments db {F}.

(* ===================================================================== *)
(** ** The world outside the script                                       *)
(* ===================================================================== *)

(** The configuration read from the environment, Python's [float], the
    parser behind [BeautifulSoup(content, "html.parser")], and the network:
    what a request is answered with, given the requests sent before it.
    [float_of_str] gives [None] where [float] raises [ValueError]. *)
Record World (F : Type) : Type := mkWorld {
  CTFTIME_URL : string;
  TIMEOUT : Z;
  float_zero : F;
  float_of_str : string -> option F;
  html_parser : string -> soup;
  network : list request -> request -> result Response
}.
Arguments mkWorld {F}.
Arguments CTFTIME_URL {F}.
Arguments TIMEOUT {F}.
Arguments float_zero {F}.
Arguments float_of_str {F}.
Arguments html_parser {F}.
Arguments network {F}.

(** A computation of the script: it reads and changes the state and either
    returns or raises.  A raised exception keeps the state reached. *)
Definition M (F A : Type) : Type := state F -> result A * state F.

Definition ret {F A : Type} (a : A) : M F A := fun s => (Ok a, s).

Definition raise {F A : Type} (e : exn) : M F A := fun s => (Raise e, s).

Definition bind {F A B : Type} (c : M F A) (k : A -> M F B) : M F B :=
  fun s =>
    match c s with
    | (Ok a, s') => k a s'
    | (Raise e, s') => (Raise e, s')
    end.

(** [try: c  except ...: h e] *)
Definition try_except {F A : Type} (c : M F A) (h : exn -> M F A) : M F A :=
  fun s =>
    match c s with
    | (Ok a, s') => (Ok a, s')
    | (Raise e, s') => h e s'
    end.

Definition lift {F A : Type} (r : result A) : M F A := fun s => (r, s).

Declare Scope spider_scope.
Delimit Scope spider_scope with spider.
Notation "x <- c ;; k" := (bind c (fun x => k))
  (at level 100, c at next level, right associativity) : spider_scope.
Notation "c ;; k" := (bind c (fun _ => k))
  (at level 100, right associativity) : spider_scope.

(** [for x in l: body x] *)
Fixpoint for_each {F A : Type} (l : list A) (body : A -> M F unit) : M F unit :=
  match l with
  | [] => ret tt
  | x :: r => bind (body x) (fun _ => for_each r body)
  end.

(** [str(n)] *)
Definition str (n : Z) : string := NilZero.string_of_int (Z.to_int n).

(** [l[-1]] *)
Definition last_opt {A : Type} (l : list A) : option A :=
  match l with
  | [] => None
  | x :: r => Some (last r x)
  end.

(* ===================================================================== *)
(** ** spider.py                                                          *)
(* ===================================================================== *)

Section Spider.

Context {F : Type} (w : World F).

Local Open Scope spider_scope.

Definition send (q : request) : M F Response :=
  fun s => (network w (trace s) q, mkState (trace s ++ [q]) (db s)).

(** [requests.get(url=url, headers={"User-Agent": USER_AGENT})] *)
Definition requests_get (url : string) : M F Response :=
  send (Get url None true).

(** [requests.head(url=url, headers={"User-Agent": USER_AGENT})] *)
Definition requests_head (url : string) : M F Response :=
  send (Head url).

(** [mongo[DATABASE][COLLECTION].insert_one(writeup)] *)
Definition insert_one (x : writeup F) : M F unit :=
  fun s => (Ok tt, mkState (trace s)
                     (mkMongo (database_exists (db s)) (documents (db s) ++ [x]))).

(** [[writeup["id"] for writeup in mongo[DATABASE][COLLECTION].find(...)]] *)
Definition find_ids : M F (list Z) :=
  fun s => (Ok (map w_id (documents (db s))), s).

(** [if DATABASE not in mongo.list_database_names(): ...create_index(...)] *)
Definition ensure_index : M F unit :=
  fun s =>
    if negb (database_exists (db s))
    then (Ok tt, mkState (trace s) (mkMongo true (documents (db s))))
    else (Ok tt, s).

Definition get_latest_writeup_id : M F pyval :=
  response <- requests_get (CTFTIME_URL w) ;;
  if negb (status_code response =? 200) then ret PyNone
  else
    match select_one sel_latest (html_parser w (content response)) with
    | None => raise TypeError
    | Some element =>
        match lookup "href" (attrs_of element) with
        | None => raise KeyError
        | Some href =>
            match Str.to_int (last (Str.split href "/") EmptyString) with
            | Some n => ret (PyInt n)
            | None => raise ValueError
            end
        end
    end.

Definition get_content_length (url : string) : M F pyval :=
  try_except
    (response <- requests_head url ;;
     if negb (response_contains (PyStr "Content-Length") response)
     then ret PyNone
     else match header "Content-Length" (headers response) with
          | Some v => ret (PyStr v)
          | None => raise KeyError
          end)
    (fun _ => ret (PyInt 0)).

(** [f"{filename}"] where [filename] may still be [None] *)
Definition format_filename (filename : option string) : string :=
  match filename with
  | Some f => f
  | None => "None"
  end.

(** Lines 106-130 of [scrape_blog_writeup]: the direct link to the
    content behind a gist or repository link. *)
Definition direct_link (url : string) : M F string :=
  if Str.contains "gist.github.com" url then
    ret (Str.strip_chars "/" url ++ "/raw")%string
  else if Str.contains "github.com" url then
    url <- (if negb (Str.endswith url ".md") then
              response <- requests_get url ;;
              let parser := html_parser w (content response) in
              let filename :=
                match select_one sel_readme parser with
                | Some element => Some (text element)
                | None =>
                    option_map text
                      (List.find (fun element => Str.endswith (text element) ".md")
                                 (select sel_navigation parser))
                end in
              ret (Str.strip_chars "/" (Str.replace url "tree" "blob")
                   ++ "/" ++ format_filename filename)%string
            else ret url) ;;
    ret (Str.replace (Str.replace url "github.com" "raw.githubusercontent.com")
                     "/blob" "/")
  else ret url.

(** Lines 137-142 of [scrape_blog_writeup]: the text of a fetched blog
    page. *)
Definition blog_text (parser : soup) : result string :=
  match decompose_all parser with
  | Ok parser => Ok (Str.strip (soup_text parser))
  | Raise e => Raise e
  end.

(** Lines 132-152 of [scrape_blog_writeup]: fetch the page and take its
    text. *)
Definition fetch_text (url : string) : M F string :=
  try_except
    (response <- send (Get url (Some (TIMEOUT w)) false) ;;
     if status_code response =? 200 then
       lift (blog_text (html_parser w (content response)))
     else ret EmptyString)
    (fun e =>
       match e with
       | ConnectTimeout => ret EmptyString
       | ConnectionError => ret EmptyString
       | _ => raise e
       end).

Definition scrape_blog_writeup (url : string) : M F string :=
  let url := hd EmptyString (Str.split url "#") in
  content_length <- get_content_length url ;;
  too_big <- (if py_eq content_length (PyInt 0) then ret true
              else lift (py_gt content_length (PyInt (2 ^ 21)))) ;;
  if too_big then ret EmptyString
  else
    url <- direct_link url ;;
    fetch_text url.

(** [f"{CTFTIME_URL}/writeup/{writeup_id}"] *)
Definition writeup_url (writeup_id : Z) : string :=
  (CTFTIME_URL w ++ "/writeup/" ++ str writeup_id)%string.

(** The dictionary returned for a deleted write-up. *)
Definition deleted_writeup (writeup_id : Z) : writeup F :=
  {| w_id := writeup_id;
     w_ctf := EmptyString;
     w_name := EmptyString;
     w_tags := EmptyString;
     w_author := EmptyString;
     w_team := EmptyString;
     w_rating := RatingStr EmptyString;
     w_ctftime := writeup_url writeup_id;
     w_url := EmptyString;
     w_ctftime_content := EmptyString;
     w_blog_content := EmptyString |}.

(** [parser.select_one(s).text.strip()]: [AttributeError] when nothing
    is selected. *)
Definition stripped_text (s : selector) (parser : soup) : M F string :=
  match select_one s parser with
  | Some element => ret (Str.strip (text element))
  | None => raise AttributeError
  end.

(** A string is true when it is not empty. *)
Definition truthy (s : string) : bool := negb (String.eqb s EmptyString).

(** [team or author], where [team] is [None] or a string *)
Definition team_or_author (team : option string) (author : string) : string :=
  match team with
  | Some t => if truthy t then t else author
  | None => author
  end.

(** [team and author or <empty string>] *)
Definition team_and_author_or_empty (team : option string) (author : string) : string :=
  match team with
  | Some t =>
      if truthy t then (if truthy author then author else EmptyString)
      else EmptyString
  | None => EmptyString
  end.

(** Lines 210-214 of [scrape_writeup_info]: the link to the write-up on
    the author's blog, or the empty string. *)
Definition blog_link (parser : soup) : string :=
  match last_opt (select sel_well parser) with
  | Some element =>
      match lookup "href" (attrs_of element) with
      | Some href => href
      | None => EmptyString
      end
  | None => EmptyString
  end.

(** Lines 217-228 of [scrape_writeup_info]: the description on the
    origin page. *)
Definition description_text (parser : soup) : string :=
  let parser := map replace_breaks (flat_map replace_anchors parser) in
  match select_one sel_description parser with
  | Some element => Str.strip (text element)
  | None => EmptyString
  end.

(** Lines 231-236 of [scrape_writeup_info]: the blog content and the
    blog link that go into the record. *)
Definition scrape_blog (blog_url : string) : M F (string * string) :=
  try_except
    (if truthy blog_url then
       blog_writeup_content <- scrape_blog_writeup blog_url ;;
       ret (blog_writeup_content, blog_url)
     else ret (EmptyString, blog_url))
    (fun _ => ret (EmptyString, EmptyString)).

Definition scrape_writeup_info (writeup_id : Z) : M F (option (writeup F) * Z) :=
  response <- requests_get (writeup_url writeup_id) ;;
  if status_code response =? 404 then
    ret (Some (deleted_writeup writeup_id), 404)
  else if negb (status_code response =? 200) then
    ret (None, status_code response)
  else
    let parser := html_parser w (content response) in
    ctf_name <- stripped_text sel_ctf parser ;;
    challenge_name <- stripped_text sel_challenge parser ;;
    author <- stripped_text sel_author parser ;;
    let team :=
      option_map (fun element => Str.strip (text element))
                 (select_one sel_team parser) in
    let team' := team_or_author team author in
    let author' := team_and_author_or_empty team author in
    let tags := Str.join " " (map text (select sel_tags parser)) in
    rating_text <- stripped_text sel_rating parser ;;
    rating <- (if truthy rating_text then
                 match float_of_str w rating_text with
                 | Some f => ret f
                 | None => raise ValueError
                 end
               else ret (float_zero w)) ;;
    let blog_url := blog_link parser in
    let ctftime_writeup_content := description_text parser in
    blog <- scrape_blog blog_url ;;
    ret (Some {| w_id := writeup_id;
                 w_ctf := ctf_name;
                 w_name := challenge_name;
                 w_tags := tags;
                 w_author := author';
                 w_team := team';
                 w_rating := RatingFloat rating;
                 w_ctftime := writeup_url writeup_id;
                 w_url := snd blog;
                 w_ctftime_content := ctftime_writeup_content;
                 w_blog_content := fst blog |}, 200).

(** [[writeup_id for writeup_id in range(1, latest_writeup_id + 1)
      if writeup_id not in crawled]] once [latest_writeup_id + 1] is
    known. *)
Definition missing_ids (stop : Z) (crawled : list Z) : list Z :=
  filter (fun writeup_id => negb (py_in writeup_id crawled)) (py_range 1 stop).

(** [insert_one] of what [scrape_writeup_info] returned; a [None] there
    is refused with [TypeError]. *)
Definition insert (writeup : option (writeup F)) : M F unit :=
  match writeup with
  | Some x => insert_one x
  | None => raise TypeError
  end.

(** The body of the loop over [missing]. *)
Definition crawl (writeup_id : Z) : M F unit :=
  r <- scrape_writeup_info writeup_id ;;
  let (writeup, code) := r in
  if code =? 200 then insert writeup
  else if code =? 404 then insert writeup
  else ret tt.

(** The script under [if __name__ == "__main__"].  What it prints (the
    log lines and the progress bar) is left out. *)
Definition main : M F unit :=
  ensure_index ;;
  latest_writeup_id <- get_latest_writeup_id ;;
  crawled <- find_ids ;;
  stop <- lift (py_add latest_writeup_id (PyInt 1)) ;;
  match stop with
  | PyInt stop => for_each (missing_ids stop crawled) crawl
  | _ => raise TypeError
  end.

End Spider.

(* ===================================================================== *)
(** ** Naming the parts of a detail page                                  *)
(* ===================================================================== *)

Definition is_some {A : Type} (o : option A) : bool :=
  match o with Some _ => true | None => false end.

(** A detail page on which the script finds the elements it reads without
    a guard: the event, the challenge, the author, and a rating that is
    empty or that [float] accepts. *)
Definition readable {F : Type} (w : World F) (parser : soup) : bool :=
  is_some (select_one sel_ctf parser)
  && is_some (select_one sel_challenge parser)
  && is_some (select_one sel_author parser)
  && match select_one sel_rating parser with
     | Some element =>
         let rating := Str.strip (text element) in
         negb (truthy rating) || is_some (float_of_str w rating)
     | None => false
     end.

(** The author's name on a detail page. *)
Definition author_name (parser : soup) : string :=
  match select_one sel_author parser with
  | Some element => Str.strip (text element)
  | None => EmptyString
  end.

(** The team's name on a detail page, when there is a team element. *)
Definition team_name (parser : soup) : option string :=
  option_map (fun element => Str.strip (text element)) (select_one sel_team parser).

(** The state after one more request. *)
Definition sent {F : Type} (q : request) (s : state F) : state F :=
  mkState (trace s ++ [q]) (db s).

(** The state after one more document. *)
Definition stored {F : Type} (x : writeup F) (s : state F) : state F :=
  mkState (trace s) (mkMongo (database_exists (db s)) (documents (db s) ++ [x])).

(** The markup [m] as the description of an origin page. *)
Definition as_description (m : soup) : soup :=
  [Tag "div" [("id", "id_description")] m].

(** No line-break element in the markup. *)
Fixpoint no_break (n : node) : bool :=
  match n with
  | Tag nm _ cs => negb (String.eqb nm "br") && forallb no_break cs
  | _ => true
  end.

(** No element of the markup has a [src] that starts with [data]. *)
Fixpoint no_data (n : node) : bool :=
  match n with
  | Tag _ a cs => negb (embeds_data a) && forallb no_data cs
  | _ => true
  end.

(* ===================================================================== *)
(** ** Sample pages and worlds                                            *)
(* ===================================================================== *)

(** The landing page, with write-up 3 in the second row of the table. *)
Definition landing_html : string :=
  "<div class='page-header'></div><table class='table-striped'><tr><th>Team</th></tr><tr><td>t</td><td>e</td><td>c</td><td><a href='/writeup/3'>read</a></td></tr></table>".

Definition landing_page : soup :=
  [ Tag "div" [("class", "page-header")] [];
    Tag "table" [("class", "table-striped")]
      [ Tag "tr" [] [Tag "th" [] [Text "Team"]];
        Tag "tr" []
          [ Tag "td" [] [Text "t"];
            Tag "td" [] [Text "e"];
            Tag "td" [] [Text "c"];
            Tag "td" [] [Tag "a" [("href", "/writeup/3")] [Text "read"]] ] ] ].

(** A detail page; [team] is what follows the author link in the header. *)
Definition detail_html (team : string) : string :=
  ("<ul class='breadcrumb'><li><a href='/'>Home</a></li><li><a href='/event/list'>Events</a></li><li><a href='/event/1'>HackCTF</a></li><li class='divider'></li><li><a href='/task/9'>baby-pwn</a></li></ul><div class='page-header'><h2>baby-pwn</h2><a href='/user/5'>alice</a>"
   ++ team
   ++ "</div><span class='label label-info'>pwn</span><span id='user_rating'>4</span><div class='well'><a href='http://blog.example/post#intro'>Original writeup</a></div><div id='id_description'>See <a href='x'>this link</a> for details</div>")%string.

Definition detail_page (team : list node) : soup :=
  [ Tag "ul" [("class", "breadcrumb")]
      [ Tag "li" [] [Tag "a" [("href", "/")] [Text "Home"]];
        Tag "li" [] [Tag "a" [("href", "/event/list")] [Text "Events"]];
        Tag "li" [] [Tag "a" [("href", "/event/1")] [Text "HackCTF"]];
        Tag "li" [("class", "divider")] [];
        Tag "li" [] [Tag "a" [("href", "/task/9")] [Text "baby-pwn"]] ];
    Tag "div" [("class", "page-header")]
      (Tag "h2" [] [Text "baby-pwn"]
       :: Tag "a" [("href", "/user/5")] [Text "alice"]
       :: team);
    Tag "span" [("class", "label label-info")] [Text "pwn"];
    Tag "span" [("id", "user_rating")] [Text "4"];
    Tag "div" [("class", "well")]
      [Tag "a" [("href", "http://blog.example/post#intro")] [Text "Original writeup"]];
    Tag "div" [("id", "id_description")]
      [Text "See "; Tag "a" [("href", "x")] [Text "this link"]; Text " for details"] ].

Definition team_html : string := "<a href='/team/7'>team7</a>".
Definition team_link : list node := [Tag "a" [("href", "/team/7")] [Text "team7"]].

(** A team link without a name in it. *)
Definition blank_team_html : string := "<a href='/team/7'></a>".
Definition blank_team_link : list node := [Tag "a" [("href", "/team/7")] []].

(** A repository page that shows its readme. *)
Definition repository_html : string :=
  "<div id='readme'><a class='Link--primary' href='#readme'>README.md</a></div>".

Definition repository_page : soup :=
  [ Tag "div" [("id", "readme")]
      [Tag "a" [("class", "Link--primary"); ("href", "#readme")] [Text "README.md"]] ].



(** Markup with an element that carries inline data and a fallback text. *)
Definition inline_data : soup :=
  [Tag "p" []
     [Text "a"; Tag "object" [("src", "data:text/plain,xyz")] [Text "x"]; Text "b"]].

(** The parser on the sample pages; any other body is taken as text. *)
Definition sample_parser (body : string) : soup :=
  match lookup body
          [ (landing_html, landing_page);
            (detail_html team_html, detail_page team_link);
            (detail_html EmptyString, detail_page []);
            (detail_html blank_team_html, detail_page blank_team_link);
            (repository_html, repository_page) ] with
  | Some d => d
  | None => [Text body]
  end.

(** A network that answers by address, whatever was asked before; an
    address it does not know is a dead link. *)
Definition sample_network (gets heads : list (string * Response))
  : list request -> request -> result Response :=
  fun _ q =>
    match q with
    | Get url _ _ =>
        match lookup url gets with Some r => Ok r | None => Raise ConnectionError end
    | Head url =>
        match lookup url heads with Some r => Ok r | None => Raise ConnectionError end
    end.

(** Ratings are whole numbers in the samples. *)
Definition sample_world (gets heads : list (string * Response)) : World Z :=
  {| CTFTIME_URL := "https://ctftime.org";
     TIMEOUT := 10;
     float_zero := 0;
     float_of_str := Str.to_int;
     html_parser := sample_parser;
     network := sample_network gets heads |}.

Definition page (code : Z) (body : string) : Response :=
  {| status_code := code; headers := []; content := body |}.

(** The origin site with three write-ups: the first is there, the second
    was deleted and the third cannot be served.  The blog answers a header
    request and advertises three million bytes. *)
Definition origin_site : World Z :=
  sample_world
    [ ("https://ctftime.org", page 200 landing_html);
      ("https://ctftime.org/writeup/1", page 200 (detail_html team_html));
      ("https://ctftime.org/writeup/2", page 404 EmptyString);
      ("https://ctftime.org/writeup/3", page 503 EmptyString) ]
    [ ("http://blog.example/post",
       {| status_code := 200;
          headers := [("Content-Length", "3000000")];
          content := EmptyString |}) ].

(** The origin site when its landing page cannot be served. *)
Definition origin_down : World Z :=
  sample_world [("https://ctftime.org", page 503 EmptyString)] [].

(** The origin site with a write-up whose team link has no name. *)
Definition origin_blank_team : World Z :=
  sample_world
    [("https://ctftime.org/writeup/1", page 200 (detail_html blank_team_html))] [].

(** A blog that answers a header request without naming a size. *)
Definition silent_blog : World Z :=
  sample_world
    [("http://blog.example/post", page 200 "hello")]
    [("http://blog.example/post", page 200 EmptyString)].

(** A repository host. *)
Definition repository_host : World Z :=
  sample_world
    [("https://github.com/u/repo/tree/main", page 200 repository_html)] [].

Definition no_requests : state Z := mkState [] (mkMongo false []).

(* ===================================================================== *)
(** ** web/app/main.py                                                    *)
(* ===================================================================== *)

(** [c.isdigit()] on the characters below code point 256: the ten digits
    and the superscripts two, three and one (178, 179, 185). *)
Definition isdigit_char (c : ascii) : bool :=
  let n := nat_of_ascii c in
  Str.is_digit c || Nat.eqb n 178 || Nat.eqb n 179 || Nat.eqb n 185.

Fixpoint all_isdigit (s : string) : bool :=
  match s with
  | EmptyString => true
  | String c r => isdigit_char c && all_isdigit r
  end.

(** [s.isdigit()]: at least one character, and digits only. *)
Definition isdigit (s : string) : bool :=
  negb (String.eqb s EmptyString) && all_isdigit s.

(** Line 25 of [search]:
    [min(int(limit), 50) if limit and limit.isdigit() and int(limit) > 0 else 50],
    where [limit] is [request.args.get("limit")], a string or [None].  The
    query itself is the store's and is left out. *)
Definition search_limit (limit : option string) : result Z :=
  match limit with
  | None => Ok 50
  | Some l =>
      if truthy l && isdigit l then
        match Str.to_int l with
        | Some n => if n >? 0 then Ok (Z.min n 50) else Ok 50
        | None => Raise ValueError
        end
      else Ok 50
  end.

(** Digits from [0] to [9] only. *)
Fixpoint ascii_digits (s : string) : bool :=
  match s with
  | EmptyString => true
  | String c r => Str.is_digit c && ascii_digits r
  end.

(* ===================================================================== *)
(** ** Naming what a run leaves behind                                    *)
(* ===================================================================== *)

(** No anchor element in the markup. *)
Fixpoint no_anchor (n : node) : bool :=
  match n with
  | Tag nm _ cs => negb (String.eqb nm "a") && forallb no_anchor cs
  | _ => true
  end.

(** The identifiers in the store. *)
Definition stored_ids {F : Type} (s : state F) : list Z :=
  map w_id (documents (db s)).

(** A request that the loop over [ids] may send: the detail page of one of
    them, without timeout and with certificate checks, or a header
    request. *)
Definition crawl_request {F : Type} (w : World F) (ids : list Z) (q : request) : Prop :=
  match q with
  | Get url None true => exists i, In i ids /\ url = writeup_url w i
  | Get _ _ _ => False
  | Head _ => True
  end.

(** The origin site when it answers a detail page with a notice instead of
    a write-up. *)
Definition origin_notice : World Z :=
  sample_world
    [ ("https://ctftime.org", page 200 landing_html);
      ("https://ctftime.org/writeup/1", page 200 "Down for maintenance") ] [].

(** The origin site when every write-up up to the latest is stored. *)
Definition all_stored : state Z :=
  mkState []
    (mkMongo true
       [ deleted_writeup origin_site 3;
         deleted_writeup origin_site 1;
         deleted_writeup origin_site 2 ]).


(** A landing page whose link to the latest write-up ends with a slash. *)
Definition slash_landing_html : string :=
  "<div class='page-header'></div><table class='table-striped'><tr><th>Team</th></tr><tr><td>t</td><td>e</td><td>c</td><td><a href='/writeup/3/'>read</a></td></tr></table>".

Definition slash_landing_page : soup :=
  [ Tag "div" [("class", "page-header")] [];
    Tag "table" [("class", "table-striped")]
      [ Tag "tr" [] [Tag "th" [] [Text "Team"]];
        Tag "tr" []
          [ Tag "td" [] [Text "t"];
            Tag "td" [] [Text "e"];
            Tag "td" [] [Text "c"];
            Tag "td" [] [Tag "a" [("href", "/writeup/3/")] [Text "read"]] ] ] ].

Definition origin_slash : World Z :=
  {| CTFTIME_URL := "https://ctftime.org";
     TIMEOUT := 10;
     float_zero := 0;
     float_of_str := Str.to_int;
     html_parser := fun body =>
                      if String.eqb body slash_landing_html then slash_landing_page
                      else sample_parser body;
     network := sample_network [("https://ctftime.org", page 200 slash_landing_html)] [] |}.

(** [parser.select_one(s).text.strip()] where the element is there, the
    empty string where it is not. *)
Definition stripped_or_empty (s : selector) (parser : soup) : string :=
  match select_one s parser with
  | Some element => Str.strip (text element)
  | None => EmptyString
  end.

(** The rating of a readable page: 0.0 for a blank rating, what [float]
    makes of it otherwise. *)
Definition rating_of {F : Type} (w : World F) (parser : soup) : F :=
  let rating := stripped_or_empty sel_rating parser in
  if truthy rating then
    match float_of_str w rating with
    | Some f => f
    | None => float_zero w
    end
  else float_zero w.

(** The record of a readable page, given what the blog step returned. *)
Definition found_writeup {F : Type} (w : World F) (writeup_id : Z) (parser : soup)
           (blog : string * string) : writeup F :=
  {| w_id := writeup_id;
     w_ctf := stripped_or_empty sel_ctf parser;
     w_name := stripped_or_empty sel_challenge parser;
     w_tags := Str.join " " (map text (select sel_tags parser));
     w_author := team_and_author_or_empty (team_name parser) (author_name parser);
     w_team := team_or_author (team_name parser) (author_name parser);
     w_rating := RatingFloat (rating_of w parser);
     w_ctftime := writeup_url w writeup_id;
     w_url := snd blog;
     w_ctftime_content := description_text parser;
     w_blog_content := fst blog |}.

(** The address that is probed for a blog link. *)
Definition probed (blog_url : string) : string :=
  hd EmptyString (Str.split blog_url "#").

(** A readable detail page without a rating, without a team and without a
    blog link. *)
Definition unrated_html : string :=
  "<ul class='breadcrumb'><li></li><li></li><li><a>HackCTF</a></li><li class='divider'></li><li><a>baby-pwn</a></li></ul><h2>baby-pwn</h2><a>alice</a><span id='user_rating'> </span>".

Definition unrated_page : soup :=
  [ Tag "ul" [("class", "breadcrumb")]
      [ Tag "li" [] [];
        Tag "li" [] [];
        Tag "li" [] [Tag "a" [] [Text "HackCTF"]];
        Tag "li" [("class", "divider")] [];
        Tag "li" [] [Tag "a" [] [Text "baby-pwn"]] ];
    Tag "h2" [] [Text "baby-pwn"];
    Tag "a" [] [Text "alice"];
    Tag "span" [("id", "user_rating")] [Text " "] ].

Definition origin_unrated : World Z :=
  {| CTFTIME_URL := "https://ctftime.org";
     TIMEOUT := 10;
     float_zero := 0;
     float_of_str := Str.to_int;
     html_parser := fun body =>
                      if String.eqb body unrated_html then unrated_page
                      else sample_parser body;
     network := sample_network
                  [("https://ctftime.org/writeup/1", page 200 unrated_html)] [] |}.

(** The superscripts two, three and one (code points 178, 179, 185). *)
Definition is_superscript (c : ascii) : bool :=
  let n := nat_of_ascii c in Nat.eqb n 178 || Nat.eqb n 179 || Nat.eqb n 185.

(** Digits from [0] to [9] and superscripts only. *)
Fixpoint digits_and_superscripts (s : string) : bool :=
  match s with
  | EmptyString => true
  | String c r => (Str.is_digit c || is_superscript c) && digits_and_superscripts r
  end.

Fixpoint has_superscript (s : string) : bool :=
  match s with
  | EmptyString => false
  | String c r => is_superscript c || has_superscript r
  end.

(* ===================================================================== *)
(** ** Naming what the text extractions give                              *)
(* ===================================================================== *)







(* ===================================================================== *)
(** ** Properties                                                         *)
(* ===================================================================== *)

(** Unfolds the plumbing of a computation. *)
Ltac run :=
  cbv beta iota delta
    [bind ret raise lift try_except send requests_get requests_head
     insert_one find_ids];
  cbn [trace db fst snd].

(** *** String methods on sample inputs *)

Example split_fragment : Str.split "http://b.log/p#top" "#" = ["http://b.log/p"; "top"].
Proof. reflexivity. Qed.

Example split_trailing :
  Str.split "/writeup/37/" "/" = [EmptyString; "writeup"; "37"; EmptyString].
Proof. reflexivity. Qed.

Example replace_all : Str.replace "a/blob/b/blobs" "/blob" "/" = "a//b/s".
Proof. reflexivity. Qed.

Example strip_slashes : Str.strip_chars "/" "//u/abc123//" = "u/abc123".
Proof. reflexivity. Qed.

Example strip_blank : Str.strip "  See this
 " = "See this".
Proof. reflexivity. Qed.

Example to_int_ok : Str.to_int " 1_024 " = Some 1024.
Proof. reflexivity. Qed.

Example to_int_bad : Str.to_int "12a" = None.
Proof. reflexivity. Qed.

Example contains_host : Str.contains "github.com" "https://gist.github.com/u/abc123/" = true.
Proof. reflexivity. Qed.

Example endswith_md : Str.endswith "docs/README.md" ".md" = true.
Proof. reflexivity. Qed.

Example str_of_int : str 37 = "37".
Proof. reflexivity. Qed.

(** *** The crawl gap *)

Lemma py_in_spec (x : Z) (l : list Z) : py_in x l = true <-> In x l.
Proof.
  unfold py_in. rewrite existsb_exists. split.
  - intros [y [Hy Hxy]]. apply Z.eqb_eq in Hxy. now subst.
  - intros H. exists x. split; [assumption | apply Z.eqb_refl].
Qed.

Lemma py_range_spec (lo hi i : Z) : In i (py_range lo hi) <-> lo <= i < hi.
Proof.
  unfold py_range. rewrite in_map_iff. split.
  - intros [k [Hk Hin]]. apply in_seq in Hin. lia.
  - intros H. exists (Z.to_nat (i - lo)). split; [lia |].
    apply in_seq. lia.
Qed.

Lemma offsets_ascending (lo : Z) (n a : nat) :
  StronglySorted Z.lt (map (fun k => lo + Z.of_nat k) (seq a n)).
Proof.
  revert a. induction n as [| n IH]; intros a; simpl.
  - constructor.
  - constructor; [apply IH |].
    apply Forall_forall. intros x Hx.
    apply in_map_iff in Hx. destruct Hx as [k [Hk Hin]].
    apply in_seq in Hin. lia.
Qed.

Lemma py_range_ascending (lo hi : Z) : StronglySorted Z.lt (py_range lo hi).
Proof. apply offsets_ascending. Qed.

Lemma filter_ascending (f : Z -> bool) (l : list Z) :
  StronglySorted Z.lt l -> StronglySorted Z.lt (filter f l).
Proof.
  induction 1 as [| x l Hl IH Hx]; simpl.
  - constructor.
  - destruct (f x); [| exact IH].
    constructor; [exact IH |].
    rewrite Forall_forall in *. intros y Hy.
    apply filter_In in Hy. apply Hx, Hy.
Qed.

Lemma missing_ids_spec (stop : Z) (crawled : list Z) (i : Z) :
  In i (missing_ids stop crawled) <-> (1 <= i < stop /\ ~ In i crawled).
Proof.
  unfold missing_ids. rewrite filter_In, py_range_spec, negb_true_iff.
  rewrite <- py_in_spec. destruct (py_in i crawled); intuition congruence.
Qed.

Lemma missing_ids_ascending (stop : Z) (crawled : list Z) :
  StronglySorted Z.lt (missing_ids stop crawled).
Proof. apply filter_ascending, py_range_ascending. Qed.

(** The store is not touched by the discovery of the latest identifier. *)
Lemma get_latest_writeup_id_db {F : Type} (w : World F) (s s1 : state F) (r : result pyval) :
  get_latest_writeup_id w s = (r, s1) -> db s1 = db s.
Proof.
  unfold get_latest_writeup_id. run.
  destruct (network w (trace s) _) as [response | e].
  - destruct (negb (status_code response =? 200)).
    + intros H. injection H as _ <-. reflexivity.
    + destruct (select_one _ _) as [element |].
      * destruct (lookup _ _) as [href |].
        -- destruct (Str.to_int _); intros H; injection H as _ <-; reflexivity.
        -- intros H. injection H as _ <-. reflexivity.
      * intros H. injection H as _ <-. reflexivity.
  - intros H. injection H as _ <-. reflexivity.
Qed.

Lemma ensure_index_documents {F : Type} (s : state F) :
  documents (db (snd (ensure_index s))) = documents (db s).
Proof. unfold ensure_index. destruct (negb _); reflexivity. Qed.

Lemma ensure_index_ok {F : Type} (s : state F) :
  ensure_index s = (Ok tt, snd (ensure_index s)).
Proof. unfold ensure_index. destruct (negb _); reflexivity. Qed.

(** C1.  When the discovery of the latest identifier returns [L], the run
    goes on as the loop over the gap computed from the stored identifiers
    [P]; the gap holds exactly the identifiers from 1 to [L] that are not
    in [P], and it is in strictly ascending order, which is the order the
    loop takes them in. *)
Theorem gap_is_range_minus_stored {F : Type} (w : World F) (s s1 : state F) (L : Z) :
  get_latest_writeup_id w (snd (ensure_index s)) = (Ok (PyInt L), s1) ->
  let P := map w_id (documents (db s)) in
  let gap := missing_ids (L + 1) P in
  main w s = for_each gap (crawl w) s1
  /\ (forall i, In i gap <-> (1 <= i <= L /\ ~ In i P))
  /\ StronglySorted Z.lt gap.
Proof.
  intros Hlatest P gap. split; [| split].
  - unfold main. unfold bind at 1. rewrite ensure_index_ok.
    unfold bind at 1. rewrite Hlatest.
    run. cbn [py_add].
    rewrite (get_latest_writeup_id_db _ _ _ _ Hlatest), ensure_index_documents.
    reflexivity.
  - intros i. unfold gap. rewrite missing_ids_spec. intuition lia.
  - apply missing_ids_ascending.
Qed.

Lemma gap_is_range_minus_stored_witness :
  get_latest_writeup_id origin_site (snd (ensure_index no_requests))
  = (Ok (PyInt 3), mkState [Get "https://ctftime.org" None true] (mkMongo true []))
  /\ main origin_site no_requests
     = for_each [1; 2; 3] (crawl origin_site)
         (mkState [Get "https://ctftime.org" None true] (mkMongo true []))
  /\ StronglySorted Z.lt (missing_ids (3 + 1) []).
Proof.
  split; [vm_compute; reflexivity |].
  pose proof (gap_is_range_minus_stored origin_site no_requests
                (mkState [Get "https://ctftime.org" None true] (mkMongo true []))
                3 ltac:(vm_compute; reflexivity)) as [Hmain [_ Hsorted]].
  split; [exact Hmain | exact Hsorted].
Defined.

(** *** The size probe *)

(** A string is never found by iterating a response: the pieces are bytes. *)
Lemma response_contains_str (key : string) (r : Response) :
  response_contains (PyStr key) r = false.
Proof.
  unfold response_contains, response_iter.
  induction (iter_slices _ _ _) as [| piece l IH]; simpl.
  - reflexivity.
  - exact IH.
Qed.

Lemma get_content_length_answered {F : Type} (w : World F) (url : string)
      (s : state F) (response : Response) :
  network w (trace s) (Head url) = Ok response ->
  get_content_length w url s = (Ok PyNone, mkState (trace s ++ [Head url]) (db s)).
Proof.
  intros H. unfold get_content_length. run. rewrite H.
  rewrite response_contains_str. reflexivity.
Qed.

Lemma get_content_length_failed {F : Type} (w : World F) (url : string)
      (s : state F) (e : exn) :
  network w (trace s) (Head url) = Raise e ->
  get_content_length w url s = (Ok (PyInt 0), mkState (trace s ++ [Head url]) (db s)).
Proof.
  intros H. unfold get_content_length. run. rewrite H. reflexivity.
Qed.

(** C10.  [get_content_length] sends one header request.  If it is
    answered, the result is [None], whatever the headers of the answer
    are; if it raises, the result is 0.  So the result is always [None] or
    0, and no advertised size reaches the comparison with the ceiling. *)
Theorem get_content_length_none_or_zero {F : Type} (w : World F) (url : string)
        (s : state F) :
  let s' := mkState (trace s ++ [Head url]) (db s) in
  (forall response, network w (trace s) (Head url) = Ok response ->
                    get_content_length w url s = (Ok PyNone, s'))
  /\ (forall e, network w (trace s) (Head url) = Raise e ->
                get_content_length w url s = (Ok (PyInt 0), s'))
  /\ (get_content_length w url s = (Ok PyNone, s')
      \/ get_content_length w url s = (Ok (PyInt 0), s')).
Proof.
  intros s'. split; [| split].
  - intros response H. exact (get_content_length_answered w url s response H).
  - intros e H. exact (get_content_length_failed w url s e H).
  - destruct (network w (trace s) (Head url)) as [response | e] eqn:H.
    + left. exact (get_content_length_answered w url s response H).
    + right. exact (get_content_length_failed w url s e H).
Qed.

(** The blog of [origin_site] advertises three million bytes, and the
    probe still answers [None]. *)
Lemma get_content_length_none_or_zero_witness :
  header "Content-Length"
         [("Content-Length", "3000000")] = Some "3000000"
  /\ get_content_length origin_site "http://blog.example/post" no_requests
     = (Ok PyNone, mkState [Head "http://blog.example/post"] (mkMongo false [])).
Proof.
  split; [reflexivity |].
  apply (proj1 (get_content_length_none_or_zero
                  origin_site "http://blog.example/post" no_requests)
               {| status_code := 200;
                  headers := [("Content-Length", "3000000")];
                  content := EmptyString |}).
  reflexivity.
Defined.

(** After a probe that was answered, the comparison with the ceiling
    raises and nothing more is sent. *)
Lemma scrape_blog_writeup_answered {F : Type} (w : World F) (url : string)
      (s : state F) (response : Response) :
  let address := hd EmptyString (Str.split url "#") in
  network w (trace s) (Head address) = Ok response ->
  scrape_blog_writeup w url s
  = (Raise TypeError, mkState (trace s ++ [Head address]) (db s)).
Proof.
  intros address H. unfold scrape_blog_writeup. fold address.
  unfold bind at 1. rewrite (get_content_length_answered w _ s response H).
  reflexivity.
Qed.

(** After a probe that raised, the blog is taken as empty and nothing more
    is sent. *)
Lemma scrape_blog_writeup_failed {F : Type} (w : World F) (url : string)
      (s : state F) (e : exn) :
  let address := hd EmptyString (Str.split url "#") in
  network w (trace s) (Head address) = Raise e ->
  scrape_blog_writeup w url s
  = (Ok EmptyString, mkState (trace s ++ [Head address]) (db s)).
Proof.
  intros address H. unfold scrape_blog_writeup. fold address.
  unfold bind at 1. rewrite (get_content_length_failed w _ s e H).
  reflexivity.
Qed.

(** C4.  The two outcomes of the probe, as the script treats them: when
    the header request is answered, whether a size is advertised or not,
    the probe gives [None], the comparison [None > 2 ** 21] raises
    [TypeError] and the body is not fetched; when the header request
    raises, the probe gives 0, the blog content is empty and the body is
    not fetched either. *)
Theorem unknown_size_stops_the_fetch {F : Type} (w : World F) (url : string)
        (s : state F) :
  let address := hd EmptyString (Str.split url "#") in
  let s' := mkState (trace s ++ [Head address]) (db s) in
  (forall response,
      network w (trace s) (Head address) = Ok response ->
      get_content_length w address s = (Ok PyNone, s')
      /\ scrape_blog_writeup w url s = (Raise TypeError, s'))
  /\ (forall e,
         network w (trace s) (Head address) = Raise e ->
         get_content_length w address s = (Ok (PyInt 0), s')
         /\ scrape_blog_writeup w url s = (Ok EmptyString, s')).
Proof.
  intros address s'. split.
  - intros response H. split.
    + exact (get_content_length_answered w address s response H).
    + exact (scrape_blog_writeup_answered w url s response H).
  - intros e H. split.
    + exact (get_content_length_failed w address s e H).
    + exact (scrape_blog_writeup_failed w url s e H).
Qed.

(** The blog of [silent_blog] answers the header request without a
    [Content-Length]; its body is never asked for. *)
Lemma unknown_size_stops_the_fetch_witness :
  header "Content-Length" (headers (page 200 EmptyString)) = None
  /\ scrape_blog_writeup silent_blog "http://blog.example/post" no_requests
     = (Raise TypeError, mkState [Head "http://blog.example/post"] (mkMongo false [])).
Proof.
  split; [reflexivity |].
  apply (proj1 (unknown_size_stops_the_fetch
                  silent_blog "http://blog.example/post" no_requests)
               (page 200 EmptyString)).
  reflexivity.
Defined.

(** *** Deleted write-ups *)

Lemma crawl_stores {F : Type} (w : World F) (i : Z) (s s1 : state F)
      (x : writeup F) (code : Z) :
  scrape_writeup_info w i s = (Ok (Some x, code), s1) ->
  code = 200 \/ code = 404 ->
  crawl w i s = (Ok tt, stored x s1).
Proof.
  intros H Hcode. unfold crawl. unfold bind. rewrite H.
  destruct Hcode as [-> | ->]; reflexivity.
Qed.

Lemma stored_is_not_missing (i stop : Z) (crawled : list Z) :
  In i crawled -> ~ In i (missing_ids stop crawled).
Proof. intros Hin Hgap. apply missing_ids_spec in Hgap. tauto. Qed.

(** C2.  When the detail page of [i] is answered with status 404,
    [scrape_writeup_info] returns, with the code 404, the record in which
    only the identifier and the address on the origin site are filled in;
    the loop body stores that record; and whatever is stored later, [i] is
    in no gap computed from a store that still holds it. *)
Theorem deleted_writeup_is_stored {F : Type} (w : World F) (i : Z) (s : state F)
        (response : Response) :
  network w (trace s) (Get (writeup_url w i) None true) = Ok response ->
  status_code response = 404 ->
  let x := deleted_writeup w i in
  let s1 := sent (Get (writeup_url w i) None true) s in
  scrape_writeup_info w i s = (Ok (Some x, 404), s1)
  /\ (w_id x = i /\ w_ctftime x = writeup_url w i
      /\ w_ctf x = EmptyString /\ w_name x = EmptyString
      /\ w_tags x = EmptyString /\ w_author x = EmptyString
      /\ w_team x = EmptyString /\ w_rating x = RatingStr EmptyString
      /\ w_url x = EmptyString /\ w_ctftime_content x = EmptyString
      /\ w_blog_content x = EmptyString)
  /\ crawl w i s = (Ok tt, stored x s1)
  /\ forall (later : mongo F) (latest : Z),
       incl (documents (db (stored x s1))) (documents later) ->
       ~ In i (missing_ids (latest + 1) (map w_id (documents later))).
Proof.
  intros Hget Hstatus x s1.
  assert (Hinfo : scrape_writeup_info w i s = (Ok (Some x, 404), s1)).
  { unfold scrape_writeup_info. run. rewrite Hget, Hstatus. reflexivity. }
  split; [exact Hinfo |]. split; [repeat split |]. split.
  - apply (crawl_stores w i s s1 x 404 Hinfo). now right.
  - intros later latest Hincl. apply stored_is_not_missing.
    apply in_map_iff. exists x. split; [reflexivity |].
    apply Hincl. cbn [stored db documents]. apply in_or_app. right. now left.
Qed.

Lemma deleted_writeup_is_stored_witness :
  crawl origin_site 2 no_requests
  = (Ok tt,
     mkState [Get "https://ctftime.org/writeup/2" None true]
       (mkMongo false
          [ {| w_id := 2; w_ctf := EmptyString; w_name := EmptyString;
               w_tags := EmptyString; w_author := EmptyString;
               w_team := EmptyString; w_rating := RatingStr EmptyString;
               w_ctftime := "https://ctftime.org/writeup/2";
               w_url := EmptyString; w_ctftime_content := EmptyString;
               w_blog_content := EmptyString |} ])).
Proof.
  exact (proj1 (proj2 (proj2
    (deleted_writeup_is_stored origin_site 2 no_requests (page 404 EmptyString)
       ltac:(vm_compute; reflexivity) ltac:(reflexivity))))).
Defined.

(** *** Failed discovery *)

(** C6.  When the landing page is answered with a status other than 200,
    the run sends that one request, stores no document and ends by
    raising [TypeError], at [latest_writeup_id + 1]. *)
Theorem failed_discovery_raises {F : Type} (w : World F) (s : state F)
        (response : Response) :
  network w (trace (snd (ensure_index s))) (Get (CTFTIME_URL w) None true)
  = Ok response ->
  status_code response <> 200 ->
  exists s', main w s = (Raise TypeError, s')
             /\ trace s' = trace s ++ [Get (CTFTIME_URL w) None true]
             /\ documents (db s') = documents (db s).
Proof.
  intros Hget Hstatus.
  exists (sent (Get (CTFTIME_URL w) None true) (snd (ensure_index s))).
  split; [| split].
  - unfold main. unfold bind at 1. rewrite ensure_index_ok.
    unfold get_latest_writeup_id. run. rewrite Hget.
    apply Z.eqb_neq in Hstatus. rewrite Hstatus. reflexivity.
  - unfold ensure_index. destruct (negb _); reflexivity.
  - cbn [sent db]. apply ensure_index_documents.
Qed.

Lemma failed_discovery_raises_witness :
  exists s', main origin_down no_requests = (Raise TypeError, s')
             /\ trace s' = [Get "https://ctftime.org" None true]
             /\ documents (db s') = [].
Proof.
  exact (failed_discovery_raises origin_down no_requests (page 503 EmptyString)
           ltac:(vm_compute; reflexivity) ltac:(simpl; lia)).
Defined.

(** *** Write-ups that are found *)

(** The blog step always returns: what it raises is caught. *)
Lemma scrape_blog_returns {F : Type} (w : World F) (blog_url : string) (s : state F) :
  exists c u s', scrape_blog w blog_url s = (Ok (c, u), s').
Proof.
  unfold scrape_blog, try_except.
  destruct (truthy blog_url).
  - unfold bind. destruct (scrape_blog_writeup w blog_url s) as [[c | e] s'].
    + exists c, blog_url, s'. reflexivity.
    + exists EmptyString, EmptyString, s'. reflexivity.
  - exists EmptyString, blog_url, s. reflexivity.
Qed.

(** The blog step when the blog resolution raises. *)
Lemma scrape_blog_raised {F : Type} (w : World F) (blog_url : string)
      (s s' : state F) (e : exn) :
  truthy blog_url = true ->
  scrape_blog_writeup w blog_url s = (Raise e, s') ->
  scrape_blog w blog_url s = (Ok (EmptyString, EmptyString), s').
Proof.
  intros Hurl Hblog. unfold scrape_blog, try_except. rewrite Hurl.
  unfold bind. rewrite Hblog. reflexivity.
Qed.

(** On a readable page answered with status 200, [scrape_writeup_info]
    returns a record with the code 200; the record carries what the blog
    step returned. *)
Lemma scrape_writeup_info_found {F : Type} (w : World F) (i : Z) (s s2 : state F)
      (response : Response) (blog_content blog_url : string) :
  network w (trace s) (Get (writeup_url w i) None true) = Ok response ->
  status_code response = 200 ->
  let parser := html_parser w (content response) in
  readable w parser = true ->
  scrape_blog w (blog_link parser) (sent (Get (writeup_url w i) None true) s)
  = (Ok (blog_content, blog_url), s2) ->
  exists x,
    scrape_writeup_info w i s = (Ok (Some x, 200), s2)
    /\ w_id x = i
    /\ w_ctftime x = writeup_url w i
    /\ w_team x = team_or_author (team_name parser) (author_name parser)
    /\ w_author x = team_and_author_or_empty (team_name parser) (author_name parser)
    /\ w_ctftime_content x = description_text parser
    /\ w_url x = blog_url
    /\ w_blog_content x = blog_content.
Proof.
  intros Hget Hstatus parser Hreadable Hblog.
  unfold readable in Hreadable.
  apply andb_prop in Hreadable. destruct Hreadable as [Hreadable Hrating].
  apply andb_prop in Hreadable. destruct Hreadable as [Hreadable Hauthor].
  apply andb_prop in Hreadable. destruct Hreadable as [Hctf Hchallenge].
  unfold scrape_writeup_info, stripped_text, team_name, author_name. run.
  rewrite Hget, Hstatus. cbn [Z.eqb Pos.eqb negb]. fold parser.
  destruct (select_one sel_ctf parser) as [ctf |]; [| discriminate].
  destruct (select_one sel_challenge parser) as [challenge |]; [| discriminate].
  destruct (select_one sel_author parser) as [author |]; [| discriminate].
  destruct (select_one sel_rating parser) as [rating |]; [| discriminate].
  cbn [option_map] in *.
  destruct (truthy (Str.strip (text rating))).
  - destruct (float_of_str w (Str.strip (text rating))) as [f |]; [| discriminate].
    unfold sent in Hblog. rewrite Hblog.
    eexists. split; [reflexivity |]. repeat split.
  - unfold sent in Hblog. rewrite Hblog.
    eexists. split; [reflexivity |]. repeat split.
Qed.

(** A readable page with a blog link whose resolution raises. *)
Lemma raised_blog_is_cleared {F : Type} (w : World F) (i : Z)
      (s s2 : state F) (response : Response) (e : exn) :
  network w (trace s) (Get (writeup_url w i) None true) = Ok response ->
  status_code response = 200 ->
  let parser := html_parser w (content response) in
  readable w parser = true ->
  truthy (blog_link parser) = true ->
  scrape_blog_writeup w (blog_link parser) (sent (Get (writeup_url w i) None true) s)
  = (Raise e, s2) ->
  exists x,
    scrape_writeup_info w i s = (Ok (Some x, 200), s2)
    /\ w_url x = EmptyString
    /\ w_blog_content x = EmptyString
    /\ crawl w i s = (Ok tt, stored x s2).
Proof.
  intros Hget Hstatus parser Hreadable Hlink Hblog.
  destruct (scrape_writeup_info_found w i s s2 response EmptyString EmptyString
              Hget Hstatus Hreadable
              (scrape_blog_raised w _ _ _ e Hlink Hblog))
    as [x [Hinfo [_ [_ [_ [_ [_ [Hurl Hcontent]]]]]]]].
  exists x. repeat split; try assumption.
  apply (crawl_stores w i s s2 x 200 Hinfo). now left.
Qed.



(** *** The size guard *)

(** C5.  On a readable page answered with status 200 whose blog link is
    answered, on the header request, with a [Content-Length] above
    [2 ** 21], the record returned has an empty blog link and an empty
    blog content, and the loop body stores it. *)
Theorem oversized_blog_is_dropped {F : Type} (w : World F) (i : Z) (s : state F)
        (response probe : Response) (advertised : string) (size : Z) :
  network w (trace s) (Get (writeup_url w i) None true) = Ok response ->
  status_code response = 200 ->
  let parser := html_parser w (content response) in
  let address := hd EmptyString (Str.split (blog_link parser) "#") in
  let s1 := sent (Get (writeup_url w i) None true) s in
  readable w parser = true ->
  truthy (blog_link parser) = true ->
  network w (trace s1) (Head address) = Ok probe ->
  header "Content-Length" (headers probe) = Some advertised ->
  Str.to_int advertised = Some size ->
  size > 2 ^ 21 ->
  exists x,
    scrape_writeup_info w i s = (Ok (Some x, 200), sent (Head address) s1)
    /\ w_url x = EmptyString
    /\ w_blog_content x = EmptyString
    /\ crawl w i s = (Ok tt, stored x (sent (Head address) s1)).
Proof.
  intros Hget Hstatus parser address s1 Hreadable Hlink Hprobe _ _ _.
  apply (raised_blog_is_cleared w i s (sent (Head address) s1) response
           TypeError Hget Hstatus Hreadable Hlink).
  exact (scrape_blog_writeup_answered w (blog_link parser) s1 probe Hprobe).
Qed.

Lemma oversized_blog_is_dropped_witness :
  3000000 > 2 ^ 21
  /\ exists x,
       scrape_writeup_info origin_site 1 no_requests
       = (Ok (Some x, 200),
          mkState [Get "https://ctftime.org/writeup/1" None true;
                   Head "http://blog.example/post"] (mkMongo false []))
       /\ w_url x = EmptyString
       /\ w_blog_content x = EmptyString
       /\ crawl origin_site 1 no_requests
          = (Ok tt,
             stored x (mkState [Get "https://ctftime.org/writeup/1" None true;
                                Head "http://blog.example/post"] (mkMongo false []))).
Proof.
  split; [reflexivity |].
  exact (oversized_blog_is_dropped origin_site 1 no_requests
           (page 200 (detail_html team_html))
           {| status_code := 200;
              headers := [("Content-Length", "3000000")];
              content := EmptyString |}
           "3000000" 3000000
           ltac:(vm_compute; reflexivity) ltac:(reflexivity)
           ltac:(vm_compute; reflexivity) ltac:(vm_compute; reflexivity)
           ltac:(vm_compute; reflexivity) ltac:(reflexivity)
           ltac:(vm_compute; reflexivity) ltac:(reflexivity)).
Defined.

(** *** Author and team *)

(** C9.  On a readable page answered with status 200, a record is
    returned with the code 200.  When the page has no team element, or a
    team element whose text is blank, the team of the record is the
    author's name and its author is the empty string.  When the page has a
    team element with a name in it, the team of the record is that name
    and its author is the author's name. *)
Theorem author_is_promoted_without_team {F : Type} (w : World F) (i : Z)
        (s : state F) (response : Response) :
  network w (trace s) (Get (writeup_url w i) None true) = Ok response ->
  status_code response = 200 ->
  let parser := html_parser w (content response) in
  readable w parser = true ->
  exists x s2,
    scrape_writeup_info w i s = (Ok (Some x, 200), s2)
    /\ (team_name parser = None \/ team_name parser = Some EmptyString ->
        w_team x = author_name parser /\ w_author x = EmptyString)
    /\ (forall team, team_name parser = Some team -> team <> EmptyString ->
        w_team x = team /\ w_author x = author_name parser).
Proof.
  intros Hget Hstatus parser Hreadable.
  destruct (scrape_blog_returns w (blog_link parser)
              (sent (Get (writeup_url w i) None true) s)) as [c [u [s2 Hblog]]].
  destruct (scrape_writeup_info_found w i s s2 response c u
              Hget Hstatus Hreadable Hblog)
    as [x [Hinfo [_ [_ [Hteam [Hauthor _]]]]]].
  exists x, s2. split; [exact Hinfo |]. fold parser in Hteam, Hauthor. split.
  - intros [Hnone | Hblank]; rewrite Hteam, Hauthor.
    + rewrite Hnone. split; reflexivity.
    + rewrite Hblank. split; reflexivity.
  - intros team Hsome Hname. rewrite Hteam, Hauthor, Hsome.
    unfold team_or_author, team_and_author_or_empty, truthy.
    apply String.eqb_neq in Hname. rewrite Hname. cbn [negb]. split; [reflexivity |].
    destruct (String.eqb_spec (author_name parser) EmptyString) as [-> | _];
      reflexivity.
Qed.

Lemma author_is_promoted_without_team_witness :
  team_name (detail_page team_link) = Some "team7"
  /\ author_name (detail_page team_link) = "alice"
  /\ exists x s2,
       scrape_writeup_info origin_site 1 no_requests = (Ok (Some x, 200), s2)
       /\ w_team x = "team7" /\ w_author x = "alice".
Proof.
  split; [reflexivity |]. split; [reflexivity |].
  destruct (author_is_promoted_without_team origin_site 1 no_requests
              (page 200 (detail_html team_html))
              ltac:(vm_compute; reflexivity) ltac:(reflexivity)
              ltac:(vm_compute; reflexivity))
    as [x [s2 [Hinfo [_ Hteam]]]].
  exists x, s2. split; [exact Hinfo |].
  apply (Hteam "team7"); [reflexivity | discriminate].
Defined.

(** A page with a team element and no name in it: the author is promoted
    although the team element is there. *)
Lemma blank_team_is_not_kept :
  select_one sel_team (detail_page blank_team_link) <> None
  /\ team_name (detail_page blank_team_link) = Some EmptyString
  /\ author_name (detail_page blank_team_link) = "alice"
  /\ exists x s2,
       scrape_writeup_info origin_blank_team 1 no_requests = (Ok (Some x, 200), s2)
       /\ w_team x = "alice" /\ w_author x = EmptyString
       /\ ~ (w_team x = EmptyString /\ w_author x = "alice").
Proof.
  split; [vm_compute; discriminate |].
  split; [reflexivity |]. split; [reflexivity |].
  eexists. eexists. split; [vm_compute; reflexivity |].
  split; [reflexivity |]. split; [reflexivity |].
  intros [H _]. discriminate H.
Qed.

(** *** Text extraction *)

Lemma node_induction (P : node -> Prop) :
  (forall s, P (Text s)) ->
  (forall s, P (Comment s)) ->
  (forall c s, P (Special c s)) ->
  (forall nm a cs, Forall P cs -> P (Tag nm a cs)) ->
  forall n, P n.
Proof.
  intros Htext Hcomment Hspecial Htag. fix IH 1. intros [s | s | c s | nm a cs].
  - apply Htext.
  - apply Hcomment.
  - apply Hspecial.
  - apply Htag. induction cs as [| c cs IHcs]; constructor.
    + apply IH.
    + exact IHcs.
Qed.

Lemma append_empty (s : string) : (s ++ EmptyString)%string = s.
Proof. induction s as [| c s IH]; simpl; [reflexivity | now rewrite IH]. Qed.

Lemma append_associative (a b c : string) :
  ((a ++ b) ++ c)%string = (a ++ (b ++ c))%string.
Proof. induction a as [| x a IH]; simpl; [reflexivity | now rewrite IH]. Qed.

Lemma joined_cons (x : string) (l : list string) :
  String.concat EmptyString (x :: l) = (x ++ String.concat EmptyString l)%string.
Proof. destruct l; simpl; [now rewrite append_empty | reflexivity]. Qed.

Lemma joined_cons_nil (x : string) : String.concat EmptyString [x] = x.
Proof. reflexivity. Qed.

Lemma joined_app (l1 l2 : list string) :
  String.concat EmptyString (l1 ++ l2)
  = (String.concat EmptyString l1 ++ String.concat EmptyString l2)%string.
Proof.
  induction l1 as [| x l1 IH].
  - reflexivity.
  - rewrite <- app_comm_cons, !joined_cons, IH, append_associative. reflexivity.
Qed.

(** Replacing the anchors by their children keeps the strings of every
    class. *)
Lemma replace_anchors_text (want : option string) (n : node) :
  String.concat EmptyString (map (strings want) (replace_anchors n))
  = strings want n.
Proof.
  induction n as [s | s | k s | nm a cs IH] using node_induction;
    try (cbn [replace_anchors map]; apply joined_cons_nil).
  assert (Hcs : String.concat EmptyString
                  (map (strings want) (flat_map replace_anchors cs))
                = String.concat EmptyString (map (strings want) cs)).
  { induction IH as [| c cs Hc _ IHcs]; [reflexivity |].
    cbn [flat_map map]. rewrite map_app, joined_app, joined_cons, Hc, IHcs.
    reflexivity. }
  cbn [replace_anchors]. destruct (String.eqb nm "a").
  - rewrite Hcs. reflexivity.
  - cbn [map strings]. rewrite joined_cons_nil. cbn [strings]. rewrite Hcs.
    reflexivity.
Qed.

Lemma replace_anchors_soup_text (d : soup) :
  soup_text (flat_map replace_anchors d) = soup_text d.
Proof.
  unfold soup_text. induction d as [| n d IH]; [reflexivity |].
  cbn [flat_map map]. rewrite map_app, joined_app, joined_cons.
  rewrite replace_anchors_text. unfold soup_text in IH. rewrite IH. reflexivity.
Qed.

(** Replacing the anchors brings in no line break. *)
Lemma replace_anchors_no_break (n : node) :
  no_break n = true -> forallb no_break (replace_anchors n) = true.
Proof.
  induction n as [s | s | k s | nm a cs IH] using node_induction; try reflexivity.
  cbn [no_break replace_anchors]. intros H.
  apply andb_prop in H. destruct H as [Hname Hcs].
  assert (Hflat : forallb no_break (flat_map replace_anchors cs) = true).
  { induction IH as [| c cs Hc _ IHcs]; [reflexivity |].
    cbn [forallb] in Hcs. apply andb_prop in Hcs. destruct Hcs as [Hc' Hcs].
    cbn [flat_map]. rewrite forallb_app, (Hc Hc'), (IHcs Hcs). reflexivity. }
  destruct (String.eqb nm "a").
  - exact Hflat.
  - cbn [forallb no_break]. rewrite Hname, Hflat. reflexivity.
Qed.

(** Without a line break there is nothing to replace. *)
Lemma replace_breaks_none (n : node) :
  no_break n = true -> replace_breaks n = n.
Proof.
  induction n as [s | s | k s | nm a cs IH] using node_induction; try reflexivity.
  cbn [no_break replace_breaks]. intros H.
  apply andb_prop in H. destruct H as [Hname Hcs].
  apply negb_true_iff in Hname. rewrite Hname. f_equal.
  induction IH as [| c cs Hc _ IHcs]; [reflexivity |].
  cbn [forallb] in Hcs. apply andb_prop in Hcs. destruct Hcs as [Hc' Hcs].
  cbn [map]. rewrite (Hc Hc'), (IHcs Hcs). reflexivity.
Qed.

Lemma replace_breaks_none_all (d : soup) :
  forallb no_break d = true -> map replace_breaks d = d.
Proof.
  induction d as [| n d IH]; [reflexivity |].
  cbn [forallb map]. intros H. apply andb_prop in H. destruct H as [Hn Hd].
  rewrite (replace_breaks_none n Hn), (IH Hd). reflexivity.
Qed.

Lemma concat_singletons {A : Type} (l : list A) :
  List.concat (map (fun c => [c]) l) = l.
Proof.
  induction l as [| c l IH]; [reflexivity |].
  cbn [map List.concat app]. now rewrite IH.
Qed.

(** Without embedded data nothing is decomposed. *)
Lemma decompose_data_none (n : node) :
  no_data n = true -> decompose_data n = Ok [n].
Proof.
  induction n as [s | s | k s | nm a cs IH] using node_induction; try reflexivity.
  cbn [no_data decompose_data]. intros H.
  apply andb_prop in H. destruct H as [Hattrs Hcs].
  apply negb_true_iff in Hattrs. rewrite Hattrs.
  assert (Hseq : sequence (map decompose_data cs) = Ok (map (fun c => [c]) cs)).
  { induction IH as [| c cs Hc _ IHcs]; [reflexivity |].
    cbn [forallb] in Hcs. apply andb_prop in Hcs. destruct Hcs as [Hc' Hcs].
    cbn [map sequence]. rewrite (Hc Hc'), (IHcs Hcs). reflexivity. }
  rewrite Hseq, concat_singletons. reflexivity.
Qed.

Lemma decompose_all_none (d : soup) :
  forallb no_data d = true -> decompose_all d = Ok d.
Proof.
  intros H. unfold decompose_all.
  assert (Hseq : sequence (map decompose_data d) = Ok (map (fun c => [c]) d)).
  { induction d as [| n d IH]; [reflexivity |].
    cbn [forallb] in H. apply andb_prop in H. destruct H as [Hn Hd].
    cbn [map sequence]. rewrite (decompose_data_none n Hn), (IH Hd). reflexivity. }
  rewrite Hseq, concat_singletons. reflexivity.
Qed.

(** The description element is the one that [select_one] finds on a page
    made of it. *)
Lemma select_description (cs : list node) :
  select_one sel_description [Tag "div" [("id", "id_description")] cs]
  = Some (Tag "div" [("id", "id_description")] cs).
Proof. reflexivity. Qed.

Lemma replace_anchors_no_break_all (d : soup) :
  forallb no_break d = true -> forallb no_break (flat_map replace_anchors d) = true.
Proof.
  induction d as [| n d IH]; [reflexivity |].
  cbn [forallb flat_map]. intros H. apply andb_prop in H. destruct H as [Hn Hd].
  rewrite forallb_app, (replace_anchors_no_break n Hn), (IH Hd). reflexivity.
Qed.

Lemma blog_text_plain (m : soup) :
  forallb no_data m = true -> blog_text m = Ok (Str.strip (soup_text m)).
Proof. intros H. unfold blog_text. rewrite (decompose_all_none m H). reflexivity. Qed.

Lemma description_text_plain (m : soup) :
  forallb no_break m = true ->
  description_text (as_description m) = Str.strip (soup_text m).
Proof.
  intros H. unfold description_text, as_description.
  cbn [flat_map replace_anchors]. change (String.eqb "div" "a") with false.
  cbn iota. rewrite app_nil_r.
  cbn [map replace_breaks]. change (String.eqb "div" "br") with false.
  cbn iota. rewrite select_description. cbn [text].
  change (interesting "div") with (@None string).
  rewrite (replace_breaks_none_all _ (replace_anchors_no_break_all m H)).
  fold (soup_text (flat_map replace_anchors m)).
  rewrite replace_anchors_soup_text. reflexivity.
Qed.


(** *** Repository links *)

(** C8.  For the repository link [https://github.com/u/repo/tree/main],
    when the page of the repository names [README.md] as its readme, the
    direct link computed has two slashes where [/blob] stood: it is not
    the address [https://raw.githubusercontent.com/u/repo/main/README.md]. *)
Theorem repository_link_keeps_a_slash {F : Type} (w : World F) (s : state F)
        (response : Response) (element : node) :
  let url := "https://github.com/u/repo/tree/main" in
  network w (trace s) (Get url None true) = Ok response ->
  select_one sel_readme (html_parser w (content response)) = Some element ->
  text element = "README.md" ->
  direct_link w url s
  = (Ok "https://raw.githubusercontent.com/u/repo//main/README.md",
     sent (Get url None true) s)
  /\ fst (direct_link w url s)
     <> Ok "https://raw.githubusercontent.com/u/repo/main/README.md".
Proof.
  intros url Hget Hsel Htext.
  assert (H : direct_link w url s
              = (Ok "https://raw.githubusercontent.com/u/repo//main/README.md",
                 sent (Get url None true) s)).
  { unfold direct_link.
    replace (Str.contains "gist.github.com" url) with false by reflexivity.
    replace (Str.contains "github.com" url) with true by reflexivity.
    replace (Str.endswith url ".md") with false by reflexivity.
    cbn [negb]. run. rewrite Hget, Hsel, Htext. reflexivity. }
  split; [exact H |]. rewrite H. cbn [fst]. discriminate.
Qed.

Lemma repository_link_keeps_a_slash_witness :
  direct_link repository_host "https://github.com/u/repo/tree/main" no_requests
  = (Ok "https://raw.githubusercontent.com/u/repo//main/README.md",
     mkState [Get "https://github.com/u/repo/tree/main" None true] (mkMongo false [])).
Proof.
  exact (proj1 (repository_link_keeps_a_slash repository_host no_requests
                  (page 200 repository_html)
                  (Tag "a" [("class", "Link--primary"); ("href", "#readme")]
                       [Text "README.md"])
                  ltac:(vm_compute; reflexivity) ltac:(vm_compute; reflexivity)
                  ltac:(reflexivity))).
Defined.

(** The gist link of the origin site's users is rewritten as expected. *)
Example gist_link :
  direct_link repository_host "https://gist.github.com/u/abc123/" no_requests
  = (Ok "https://gist.github.com/u/abc123/raw", no_requests).
Proof. reflexivity. Qed.

(** A whole run on the sample site: the first write-up is stored with its
    blog fields cleared, the second is stored as deleted, the third is not
    stored. *)
Example sample_run :
  let (r, s) := main origin_site no_requests in
  r = Ok tt
  /\ map w_id (documents (db s)) = [1; 2]
  /\ trace s = [ Get "https://ctftime.org" None true;
                 Get "https://ctftime.org/writeup/1" None true;
                 Head "http://blog.example/post";
                 Get "https://ctftime.org/writeup/2" None true;
                 Get "https://ctftime.org/writeup/3" None true ].
Proof. vm_compute. repeat split. Qed.

(* ===================================================================== *)
(** ** Further properties                                                 *)
(* ===================================================================== *)

(** *** The limit of a search *)

Lemma isdigit_char_plain (c : ascii) :
  isdigit_char c = true ->
  Str.mem c Str.whitespace = false
  /\ Ascii.eqb c "-" = false /\ Ascii.eqb c "+" = false /\ Ascii.eqb c "_" = false.
Proof.
  destruct c as [[] [] [] [] [] [] [] []]; intros H;
    solve [discriminate H | repeat split; reflexivity].
Qed.

Lemma is_digit_isdigit_char (c : ascii) :
  Str.is_digit c = true -> isdigit_char c = true.
Proof. intros H. unfold isdigit_char. rewrite H. reflexivity. Qed.

Lemma digit_value_bounds (c : ascii) :
  Str.is_digit c = true -> 0 <= Str.digit_value c <= 9.
Proof.
  destruct c as [[] [] [] [] [] [] [] []]; intros H;
    solve [discriminate H | vm_compute; split; discriminate].
Qed.

Lemma rstrip_chars_none (chars s : string) :
  (forall c, Str.mem c s = true -> Str.mem c chars = false) ->
  Str.rstrip_chars chars s = s.
Proof.
  induction s as [| c s IH]; intros H; [reflexivity |].
  cbn [Str.rstrip_chars]. rewrite IH.
  - destruct s; [| reflexivity].
    rewrite (H c); [reflexivity |]. cbn [Str.mem]. now rewrite Ascii.eqb_refl.
  - intros d Hd. apply H. cbn [Str.mem]. rewrite Hd. apply orb_true_r.
Qed.

Lemma mem_all_isdigit (s : string) (c : ascii) :
  all_isdigit s = true -> Str.mem c s = true -> isdigit_char c = true.
Proof.
  induction s as [| d s IH]; cbn [all_isdigit Str.mem]; intros Hall Hmem.
  - discriminate Hmem.
  - apply andb_prop in Hall. destruct Hall as [Hd Hs].
    apply orb_prop in Hmem. destruct Hmem as [Heq | Hmem].
    + apply Ascii.eqb_eq in Heq. now subst.
    + exact (IH Hs Hmem).
Qed.

(** A string of [isdigit] characters has nothing to strip. *)
Lemma strip_isdigit (s : string) : all_isdigit s = true -> Str.strip s = s.
Proof.
  intros H. unfold Str.strip, Str.strip_chars.
  assert (Hl : Str.lstrip_chars Str.whitespace s = s).
  { destruct s as [| c s]; [reflexivity |].
    cbn [Str.lstrip_chars]. cbn [all_isdigit] in H.
    apply andb_prop in H. destruct H as [Hc _].
    now rewrite (proj1 (isdigit_char_plain c Hc)). }
  rewrite Hl. apply rstrip_chars_none.
  intros c Hc. exact (proj1 (isdigit_char_plain c (mem_all_isdigit s c H Hc))).
Qed.

Lemma isdigit_char_not_blank (c : ascii) :
  isdigit_char c = true -> Str.mem c Str.int_whitespace = false.
Proof.
  destruct c as [[] [] [] [] [] [] [] []]; intros H;
    solve [discriminate H | reflexivity].
Qed.

(** A string of [isdigit] characters has no blank for [int] to pass over. *)
Lemma int_strip_isdigit (s : string) :
  all_isdigit s = true -> Str.strip_chars Str.int_whitespace s = s.
Proof.
  intros H. unfold Str.strip_chars.
  assert (Hl : Str.lstrip_chars Str.int_whitespace s = s).
  { destruct s as [| c s]; [reflexivity |].
    cbn [Str.lstrip_chars]. cbn [all_isdigit] in H.
    apply andb_prop in H. destruct H as [Hc _].
    now rewrite (isdigit_char_not_blank c Hc). }
  rewrite Hl. apply rstrip_chars_none.
  intros c Hc. exact (isdigit_char_not_blank c (mem_all_isdigit s c H Hc)).
Qed.

Lemma count_digits_length (s : string) :
  0 <= Str.count_digits s <= Z.of_nat (String.length s).
Proof.
  induction s as [| c s IH]; cbn [Str.count_digits String.length]; [lia |].
  destruct (Str.is_digit c); lia.
Qed.

Lemma to_int_isdigit (s : string) :
  all_isdigit s = true -> Str.to_int s = Str.bounded_digits s.
Proof.
  intros H. unfold Str.to_int. rewrite (int_strip_isdigit s H).
  destruct s as [| c s]; [reflexivity |].
  cbn [all_isdigit] in H. apply andb_prop in H. destruct H as [Hc _].
  destruct (isdigit_char_plain c Hc) as [_ [Hminus [Hplus _]]].
  destruct c as [[] [] [] [] [] [] [] []];
    solve [reflexivity | discriminate Hminus | discriminate Hplus].
Qed.

Lemma digits_go_ascii (s : string) (acc : Z) :
  ascii_digits s = true -> 0 <= acc ->
  exists n, Str.digits_go acc true s = Some n /\ 0 <= n.
Proof.
  revert acc. induction s as [| c s IH]; intros acc Hs Hacc.
  - exists acc. split; [reflexivity | assumption].
  - cbn [ascii_digits] in Hs. apply andb_prop in Hs. destruct Hs as [Hc Hs].
    cbn [Str.digits_go]. rewrite Hc. apply IH; [assumption |].
    pose proof (digit_value_bounds c Hc). lia.
Qed.

Lemma ascii_digits_all_isdigit (s : string) :
  ascii_digits s = true -> all_isdigit s = true.
Proof.
  induction s as [| c s IH]; [reflexivity |].
  cbn [ascii_digits all_isdigit]. intros H.
  apply andb_prop in H. destruct H as [Hc Hs].
  now rewrite (is_digit_isdigit_char c Hc), (IH Hs).
Qed.

(** X1.  Whatever the [limit] argument is, when a limit is computed it
    lies between 1 and 50. *)
Theorem search_limit_bounds (limit : option string) (n : Z) :
  search_limit limit = Ok n -> 1 <= n <= 50.
Proof.
  unfold search_limit. destruct limit as [l |].
  - destruct (truthy l && isdigit l).
    + destruct (Str.to_int l) as [k |]; [| discriminate].
      destruct (k >? 0) eqn:Hk; intros H; injection H as <-; lia.
    + intros H. injection H as <-. lia.
  - intros H. injection H as <-. lia.
Qed.

Lemma search_limit_bounds_witness :
  search_limit (Some "007") = Ok 7 /\ 1 <= 7 <= 50.
Proof.
  split; [reflexivity |].
  exact (search_limit_bounds (Some "007") 7 ltac:(reflexivity)).
Defined.

(** X2.  For a non-empty [limit] made of the digits 0 to 9, of at most
    4300 characters, [int] succeeds with some [n >= 0] and the limit is
    [min(n, 50)] when [n] is positive and 50 when it is zero. *)
Theorem search_limit_of_digits (l : string) :
  l <> EmptyString -> ascii_digits l = true -> (String.length l <= 4300)%nat ->
  exists n, Str.to_int l = Some n /\ 0 <= n
            /\ search_limit (Some l) = Ok (if n >? 0 then Z.min n 50 else 50).
Proof.
  intros Hne Hdigits Hlength.
  pose proof (ascii_digits_all_isdigit l Hdigits) as Hall.
  assert (Hint : exists n, Str.to_int l = Some n /\ 0 <= n).
  { rewrite (to_int_isdigit l Hall). unfold Str.bounded_digits.
    assert (Hbound : (Str.count_digits l >? 4300) = false).
    { pose proof (count_digits_length l) as Hcount.
      destruct (Str.count_digits l >? 4300) eqn:Hgt; [| reflexivity].
      apply Z.gtb_lt in Hgt. lia. }
    rewrite Hbound.
    destruct l as [| c r]; [congruence |].
    cbn [ascii_digits] in Hdigits. apply andb_prop in Hdigits.
    destruct Hdigits as [Hc Hr]. cbn [Str.digits_go]. rewrite Hc.
    apply digits_go_ascii; [assumption |].
    pose proof (digit_value_bounds c Hc). lia. }
  destruct Hint as [n [Hn Hpos]]. exists n. split; [exact Hn |]. split; [exact Hpos |].
  unfold search_limit, truthy, isdigit.
  apply String.eqb_neq in Hne. rewrite Hne, Hall, Hn. cbn [negb andb].
  destruct (n >? 0); reflexivity.
Qed.

Lemma search_limit_of_digits_witness :
  exists n, Str.to_int "120" = Some n /\ 0 <= n
            /\ search_limit (Some "120") = Ok (if n >? 0 then Z.min n 50 else 50).
Proof.
  exact (search_limit_of_digits "120" ltac:(discriminate) ltac:(reflexivity)
           ltac:(simpl; lia)).
Defined.

Lemma digits_go_superscript (s : string) (acc : Z) (prev : bool) :
  all_isdigit s = true -> ascii_digits s = false ->
  Str.digits_go acc prev s = None.
Proof.
  revert acc prev. induction s as [| c s IH]; intros acc prev Hall Hascii.
  - discriminate Hascii.
  - cbn [all_isdigit] in Hall. apply andb_prop in Hall. destruct Hall as [Hc Hs].
    cbn [ascii_digits] in Hascii. cbn [Str.digits_go].
    destruct (Str.is_digit c).
    + apply IH; assumption.
    + destruct (isdigit_char_plain c Hc) as [_ [_ [_ Hunder]]].
      rewrite Hunder. reflexivity.
Qed.

Lemma superscript_is_isdigit (c : ascii) :
  Str.is_digit c || is_superscript c = isdigit_char c.
Proof.
  unfold isdigit_char, is_superscript. cbv zeta.
  destruct (Str.is_digit c), (Nat.eqb (nat_of_ascii c) 178),
    (Nat.eqb (nat_of_ascii c) 179), (Nat.eqb (nat_of_ascii c) 185); reflexivity.
Qed.

Lemma superscript_is_no_digit (c : ascii) :
  is_superscript c = true -> Str.is_digit c = false.
Proof.
  destruct c as [[] [] [] [] [] [] [] []]; intros H;
    solve [discriminate H | reflexivity].
Qed.

Lemma digits_and_superscripts_isdigit (s : string) :
  digits_and_superscripts s = true -> all_isdigit s = true.
Proof.
  induction s as [| c s IH]; [reflexivity |].
  cbn [digits_and_superscripts all_isdigit]. intros H.
  apply andb_prop in H. destruct H as [Hc Hs].
  rewrite <- superscript_is_isdigit, Hc, (IH Hs). reflexivity.
Qed.

Lemma has_superscript_not_ascii (s : string) :
  has_superscript s = true -> ascii_digits s = false.
Proof.
  induction s as [| c s IH]; cbn [has_superscript ascii_digits]; [discriminate |].
  intros H. apply orb_prop in H. destruct H as [Hc | Hs].
  - now rewrite (superscript_is_no_digit c Hc).
  - rewrite (IH Hs). apply andb_false_r.
Qed.

(** X3.  A [limit] made of the digits 0 to 9 and of the superscript digits
    one, two and three (code points 185, 178, 179), with at least one
    superscript in it, is accepted by [isdigit] and refused by [int]: the
    guard lets it through and the conversion raises [ValueError]. *)
Theorem search_limit_superscript (l : string) :
  digits_and_superscripts l = true -> has_superscript l = true ->
  isdigit l = true /\ search_limit (Some l) = Raise ValueError.
Proof.
  intros Hchars Hsuper.
  pose proof (digits_and_superscripts_isdigit l Hchars) as Hall.
  pose proof (has_superscript_not_ascii l Hsuper) as Hascii.
  assert (Hne : negb (String.eqb l EmptyString) = true).
  { destruct l; [discriminate Hsuper | reflexivity]. }
  assert (Hdigit : isdigit l = true).
  { unfold isdigit. now rewrite Hne, Hall. }
  split; [exact Hdigit |].
  unfold search_limit, truthy. rewrite Hne, Hdigit. cbn [andb].
  rewrite (to_int_isdigit l Hall). unfold Str.bounded_digits.
  rewrite (digits_go_superscript l 0 false Hall Hascii).
  destruct (Str.count_digits l >? 4300); reflexivity.
Qed.

Lemma search_limit_superscript_witness :
  search_limit (Some (String "1" (String (ascii_of_nat 178) EmptyString)))
  = Raise ValueError.
Proof.
  exact (proj2 (search_limit_superscript
                  (String "1" (String (ascii_of_nat 178) EmptyString))
                  ltac:(reflexivity) ltac:(reflexivity))).
Defined.

(** *** The blog step *)

Lemma prefix_empty (s : string) : String.prefix EmptyString s = true.
Proof. destruct s; reflexivity. Qed.

Lemma prefix_char (c d : ascii) (s : string) :
  String.prefix (String c EmptyString) (String d s) = Ascii.eqb c d.
Proof.
  cbn [String.prefix]. rewrite prefix_empty.
  destruct (Ascii.ascii_dec c d) as [-> | Hne].
  - now rewrite Ascii.eqb_refl.
  - apply Ascii.eqb_neq in Hne. now rewrite Hne.
Qed.

Lemma contains_char (c : ascii) (s : string) :
  Str.contains (String c EmptyString) s = Str.mem c s.
Proof.
  induction s as [| d s IH]; [reflexivity |].
  cbn [Str.contains Str.mem]. rewrite IH, prefix_char. reflexivity.
Qed.

Lemma mem_append (c : ascii) (a b : string) :
  Str.mem c (a ++ b) = Str.mem c a || Str.mem c b.
Proof.
  induction a as [| d a IH]; [reflexivity |].
  cbn [append Str.mem]. rewrite IH. apply orb_assoc.
Qed.

(** The first piece of a split on one character: it has the character
    nowhere, and the string goes on with the character or ends. *)
Lemma split_go_first (c : ascii) (s cur : string) :
  Str.mem c cur = false ->
  let first := hd EmptyString (Str.split_go (String c EmptyString) 0 cur s) in
  Str.mem c first = false
  /\ exists rest, (cur ++ s)%string = (first ++ rest)%string
                  /\ (rest = EmptyString \/ exists r, rest = String c r).
Proof.
  revert cur. induction s as [| d s IH]; intros cur Hcur.
  - cbn. split; [exact Hcur |]. exists EmptyString. split; [reflexivity | now left].
  - cbn [Str.split_go]. rewrite prefix_char.
    destruct (Ascii.eqb_spec c d) as [<- | Hne].
    + cbn [hd]. split; [exact Hcur |]. exists (String c s). split; [reflexivity |].
      right. now exists s.
    + assert (Hcur' : Str.mem c (cur ++ String d EmptyString) = false).
      { rewrite mem_append, Hcur. cbn [Str.mem orb].
        apply Ascii.eqb_neq in Hne. now rewrite Hne. }
      destruct (IH _ Hcur') as [Hmem [rest [Heq Hrest]]].
      split; [exact Hmem |]. exists rest. split; [| exact Hrest].
      rewrite <- Heq, append_associative. reflexivity.
Qed.

(** X5.  The address that [scrape_blog_writeup] probes is the link up to
    its first [#]: it holds no [#], and the link is that address, alone or
    followed by [#] and the rest. *)
Theorem probed_address_has_no_fragment (url : string) :
  Str.contains "#" (probed url) = false
  /\ exists rest, url = (probed url ++ rest)%string
                  /\ (rest = EmptyString \/ exists r, rest = String "#" r).
Proof.
  destruct (split_go_first "#" url EmptyString eq_refl) as [Hmem Hrest].
  split; [| exact Hrest].
  unfold probed, Str.split. rewrite contains_char. exact Hmem.
Qed.

(** X4.  Whatever the link and the network, [scrape_blog_writeup] sends
    one request, the header request, and then either returns the empty
    string or raises [TypeError]: the page behind the link is never
    fetched and no text is ever returned. *)
Theorem scrape_blog_writeup_never_fetches {F : Type} (w : World F) (url : string)
        (s : state F) :
  scrape_blog_writeup w url s = (Ok EmptyString, sent (Head (probed url)) s)
  \/ scrape_blog_writeup w url s = (Raise TypeError, sent (Head (probed url)) s).
Proof.
  destruct (network w (trace s) (Head (probed url))) as [response | e] eqn:H.
  - right. exact (scrape_blog_writeup_answered w url s response H).
  - left. exact (scrape_blog_writeup_failed w url s e H).
Qed.

Lemma scrape_blog_no_link {F : Type} (w : World F) (blog_url : string) (s : state F) :
  truthy blog_url = false ->
  blog_url = EmptyString /\ scrape_blog w blog_url s = (Ok (EmptyString, EmptyString), s).
Proof.
  intros H. unfold truthy in H. apply negb_false_iff, String.eqb_eq in H. subst.
  split; reflexivity.
Qed.

Lemma scrape_blog_answered {F : Type} (w : World F) (blog_url : string)
      (s : state F) (response : Response) :
  truthy blog_url = true ->
  network w (trace s) (Head (probed blog_url)) = Ok response ->
  scrape_blog w blog_url s
  = (Ok (EmptyString, EmptyString), sent (Head (probed blog_url)) s).
Proof.
  intros Hlink H.
  exact (scrape_blog_raised w blog_url s _ TypeError Hlink
           (scrape_blog_writeup_answered w blog_url s response H)).
Qed.

Lemma scrape_blog_failed {F : Type} (w : World F) (blog_url : string)
      (s : state F) (e : exn) :
  truthy blog_url = true ->
  network w (trace s) (Head (probed blog_url)) = Raise e ->
  scrape_blog w blog_url s
  = (Ok (EmptyString, blog_url), sent (Head (probed blog_url)) s).
Proof.
  intros Hlink H. unfold scrape_blog, try_except. rewrite Hlink.
  unfold bind. rewrite (scrape_blog_writeup_failed w blog_url s e H). reflexivity.
Qed.

(** *** The record of a page *)

Lemma scrape_writeup_info_raised {F : Type} (w : World F) (i : Z) (s : state F)
      (e : exn) :
  network w (trace s) (Get (writeup_url w i) None true) = Raise e ->
  scrape_writeup_info w i s = (Raise e, sent (Get (writeup_url w i) None true) s).
Proof. intros H. unfold scrape_writeup_info. run. rewrite H. reflexivity. Qed.

Lemma scrape_writeup_info_failed {F : Type} (w : World F) (i : Z) (s : state F)
      (response : Response) :
  network w (trace s) (Get (writeup_url w i) None true) = Ok response ->
  status_code response <> 404 -> status_code response <> 200 ->
  scrape_writeup_info w i s
  = (Ok (None, status_code response), sent (Get (writeup_url w i) None true) s).
Proof.
  intros H H404 H200. unfold scrape_writeup_info. run. rewrite H.
  apply Z.eqb_neq in H404, H200. rewrite H404, H200. reflexivity.
Qed.

Lemma scrape_writeup_info_unreadable {F : Type} (w : World F) (i : Z) (s : state F)
      (response : Response) :
  network w (trace s) (Get (writeup_url w i) None true) = Ok response ->
  status_code response = 200 ->
  readable w (html_parser w (content response)) = false ->
  exists e, (e = AttributeError \/ e = ValueError)
            /\ scrape_writeup_info w i s
               = (Raise e, sent (Get (writeup_url w i) None true) s).
Proof.
  intros Hget Hstatus Hreadable.
  unfold scrape_writeup_info, stripped_text. run.
  rewrite Hget, Hstatus. cbn [Z.eqb Pos.eqb negb].
  unfold readable in Hreadable.
  destruct (select_one sel_ctf _) as [ctf |];
    [| exists AttributeError; split; [now left | reflexivity]].
  destruct (select_one sel_challenge _) as [challenge |];
    [| exists AttributeError; split; [now left | reflexivity]].
  destruct (select_one sel_author _) as [author |];
    [| exists AttributeError; split; [now left | reflexivity]].
  destruct (select_one sel_rating _) as [rating |];
    [| exists AttributeError; split; [now left | reflexivity]].
  cbn [is_some andb] in Hreadable.
  destruct (truthy (Str.strip (text rating))); [| discriminate Hreadable].
  destruct (float_of_str w (Str.strip (text rating))); [discriminate Hreadable |].
  exists ValueError. split; [now right | reflexivity].
Qed.

(** On a readable page the record is [found_writeup], with what the blog
    step returned. *)
Lemma scrape_writeup_info_record {F : Type} (w : World F) (i : Z) (s s2 : state F)
      (response : Response) (blog : string * string) :
  network w (trace s) (Get (writeup_url w i) None true) = Ok response ->
  status_code response = 200 ->
  let parser := html_parser w (content response) in
  readable w parser = true ->
  scrape_blog w (blog_link parser) (sent (Get (writeup_url w i) None true) s)
  = (Ok blog, s2) ->
  scrape_writeup_info w i s = (Ok (Some (found_writeup w i parser blog), 200), s2).
Proof.
  intros Hget Hstatus parser Hreadable Hblog.
  unfold readable in Hreadable.
  apply andb_prop in Hreadable. destruct Hreadable as [Hreadable Hrating].
  apply andb_prop in Hreadable. destruct Hreadable as [Hreadable Hauthor].
  apply andb_prop in Hreadable. destruct Hreadable as [Hctf Hchallenge].
  unfold found_writeup, rating_of, stripped_or_empty, team_name, author_name.
  unfold scrape_writeup_info, stripped_text. run.
  rewrite Hget, Hstatus. cbn [Z.eqb Pos.eqb negb]. fold parser.
  destruct (select_one sel_ctf parser) as [ctf |]; [| discriminate].
  destruct (select_one sel_challenge parser) as [challenge |]; [| discriminate].
  destruct (select_one sel_author parser) as [author |]; [| discriminate].
  destruct (select_one sel_rating parser) as [rating |]; [| discriminate].
  cbn [option_map] in *. unfold sent in Hblog.
  destruct (truthy (Str.strip (text rating))).
  - destruct (float_of_str w (Str.strip (text rating))) as [f |]; [| discriminate].
    rewrite Hblog. reflexivity.
  - rewrite Hblog. reflexivity.
Qed.

(** X6.  On a readable page answered with status 200 the record never
    carries blog content.  Without a blog link no probe is sent.  With a
    blog link one header request is sent and nothing else; when it is
    answered the link is erased from the record, and when it raises the
    link is kept. *)
Theorem blog_fields_of_a_record {F : Type} (w : World F) (i : Z) (s : state F)
        (response : Response) :
  network w (trace s) (Get (writeup_url w i) None true) = Ok response ->
  status_code response = 200 ->
  let parser := html_parser w (content response) in
  let s1 := sent (Get (writeup_url w i) None true) s in
  let address := probed (blog_link parser) in
  readable w parser = true ->
  exists x s2,
    scrape_writeup_info w i s = (Ok (Some x, 200), s2)
    /\ w_blog_content x = EmptyString
    /\ (blog_link parser = EmptyString -> s2 = s1 /\ w_url x = EmptyString)
    /\ (blog_link parser <> EmptyString -> s2 = sent (Head address) s1)
    /\ (forall probe, blog_link parser <> EmptyString ->
                      network w (trace s1) (Head address) = Ok probe ->
                      w_url x = EmptyString)
    /\ (forall e, blog_link parser <> EmptyString ->
                  network w (trace s1) (Head address) = Raise e ->
                  w_url x = blog_link parser).
Proof.
  intros Hget Hstatus parser s1 address Hreadable.
  destruct (truthy (blog_link parser)) eqn:Hlink.
  - assert (Hne : blog_link parser <> EmptyString).
    { unfold truthy in Hlink. apply negb_true_iff, String.eqb_neq in Hlink.
      exact Hlink. }
    destruct (network w (trace s1) (Head address)) as [probe | e] eqn:Hprobe.
    + exists (found_writeup w i parser (EmptyString, EmptyString)),
             (sent (Head address) s1).
      split.
      { apply (scrape_writeup_info_record w i s _ response _ Hget Hstatus Hreadable).
        exact (scrape_blog_answered w _ s1 probe Hlink Hprobe). }
      split; [reflexivity |]. split; [intros H; contradiction |].
      split; [reflexivity |]. split; [reflexivity |].
      intros e _ H. discriminate H.
    + exists (found_writeup w i parser (EmptyString, blog_link parser)),
             (sent (Head address) s1).
      split.
      { apply (scrape_writeup_info_record w i s _ response _ Hget Hstatus Hreadable).
        exact (scrape_blog_failed w _ s1 e Hlink Hprobe). }
      split; [reflexivity |]. split; [intros H; contradiction |].
      split; [reflexivity |]. split; [| reflexivity].
      intros probe _ H. discriminate H.
  - destruct (scrape_blog_no_link w _ s1 Hlink) as [Hempty Hblog].
    exists (found_writeup w i parser (EmptyString, EmptyString)), s1.
    split.
    { exact (scrape_writeup_info_record w i s _ response _ Hget Hstatus Hreadable
               Hblog). }
    split; [reflexivity |]. split; [intros _; split; reflexivity |].
    split; [intros H; contradiction |].
    split; intros ? H; contradiction.
Qed.

Lemma blog_fields_of_a_record_witness :
  blog_link (detail_page blank_team_link) = "http://blog.example/post#intro"
  /\ exists x s2,
       scrape_writeup_info origin_blank_team 1 no_requests = (Ok (Some x, 200), s2)
       /\ w_blog_content x = EmptyString
       /\ w_url x = "http://blog.example/post#intro".
Proof.
  split; [reflexivity |].
  destruct (blog_fields_of_a_record origin_blank_team 1 no_requests
              (page 200 (detail_html blank_team_html))
              ltac:(vm_compute; reflexivity) ltac:(reflexivity)
              ltac:(vm_compute; reflexivity))
    as [x [s2 [Hinfo [Hcontent [_ [_ [_ Hkept]]]]]]].
  exists x, s2. split; [exact Hinfo |]. split; [exact Hcontent |].
  apply (Hkept ConnectionError); [discriminate | vm_compute; reflexivity].
Defined.

(** X9.  On a readable page answered with status 200 whose rating is
    blank, the rating of the record is 0.0; otherwise it is the float that
    [float] makes of the rating text. *)
Theorem rating_of_a_record {F : Type} (w : World F) (i : Z) (s : state F)
        (response : Response) :
  network w (trace s) (Get (writeup_url w i) None true) = Ok response ->
  status_code response = 200 ->
  let parser := html_parser w (content response) in
  let rating := stripped_or_empty sel_rating parser in
  readable w parser = true ->
  exists x s2,
    scrape_writeup_info w i s = (Ok (Some x, 200), s2)
    /\ (rating = EmptyString -> w_rating x = RatingFloat (float_zero w))
    /\ (rating <> EmptyString ->
        exists f, float_of_str w rating = Some f /\ w_rating x = RatingFloat f).
Proof.
  intros Hget Hstatus parser rating Hreadable.
  destruct (scrape_blog_returns w (blog_link parser)
              (sent (Get (writeup_url w i) None true) s)) as [c [u [s2 Hblog]]].
  exists (found_writeup w i parser (c, u)), s2.
  split.
  { exact (scrape_writeup_info_record w i s _ response _ Hget Hstatus Hreadable
             Hblog). }
  cbn [found_writeup w_rating]. unfold rating_of. fold rating. split.
  - intros ->. reflexivity.
  - intros Hne. unfold truthy. apply String.eqb_neq in Hne. rewrite Hne. cbn [negb].
    unfold readable in Hreadable. apply andb_prop in Hreadable.
    destruct Hreadable as [_ Hrating].
    unfold rating, stripped_or_empty in *. fold parser in Hrating.
    destruct (select_one sel_rating parser) as [element |]; [| discriminate].
    unfold truthy in Hrating. rewrite Hne in Hrating. cbn [negb orb] in Hrating.
    destruct (float_of_str w (Str.strip (text element))) as [f |]; [| discriminate].
    exists f. split; reflexivity.
Qed.

Lemma rating_of_a_record_witness :
  stripped_or_empty sel_rating unrated_page = EmptyString
  /\ exists x s2,
       scrape_writeup_info origin_unrated 1 no_requests = (Ok (Some x, 200), s2)
       /\ w_rating x = RatingFloat 0.
Proof.
  split; [reflexivity |].
  destruct (rating_of_a_record origin_unrated 1 no_requests (page 200 unrated_html)
              ltac:(vm_compute; reflexivity) ltac:(reflexivity)
              ltac:(vm_compute; reflexivity))
    as [x [s2 [Hinfo [Hblank _]]]].
  exists x, s2. split; [exact Hinfo |]. apply Hblank. reflexivity.
Defined.

(** X7.  When the detail page of [i] is answered with a status other than
    200 and 404, [scrape_writeup_info] returns no record and that status,
    the loop body stores nothing, and [i], if it was missing, is still
    missing from the store for any later latest identifier [L >= i]. *)
Theorem failed_writeup_stays_missing {F : Type} (w : World F) (i : Z) (s : state F)
        (response : Response) :
  network w (trace s) (Get (writeup_url w i) None true) = Ok response ->
  status_code response <> 200 -> status_code response <> 404 ->
  let s1 := sent (Get (writeup_url w i) None true) s in
  scrape_writeup_info w i s = (Ok (None, status_code response), s1)
  /\ crawl w i s = (Ok tt, s1)
  /\ forall L, 1 <= i <= L -> ~ In i (stored_ids s) ->
               In i (missing_ids (L + 1) (stored_ids s1)).
Proof.
  intros Hget H200 H404 s1.
  pose proof (scrape_writeup_info_failed w i s response Hget H404 H200) as Hinfo.
  split; [exact Hinfo |]. split.
  - unfold crawl. unfold bind. rewrite Hinfo.
    apply Z.eqb_neq in H200, H404. rewrite H200, H404. reflexivity.
  - intros L Hi Hnew. apply missing_ids_spec. split; [lia | exact Hnew].
Qed.

Lemma failed_writeup_stays_missing_witness :
  crawl origin_site 3 no_requests
  = (Ok tt, mkState [Get "https://ctftime.org/writeup/3" None true] (mkMongo false []))
  /\ In 3 (missing_ids (3 + 1) []).
Proof.
  destruct (failed_writeup_stays_missing origin_site 3 no_requests
              (page 503 EmptyString)
              ltac:(vm_compute; reflexivity) ltac:(simpl; lia) ltac:(simpl; lia))
    as [_ [Hcrawl Hmissing]].
  split; [exact Hcrawl |].
  apply (Hmissing 3); [lia | intros H; exact H].
Defined.

(** X8.  When the detail page of [i] is answered with status 200 and is
    not readable (the event, the challenge, the author or the rating
    element is not there, or the rating is not a number), the resolution
    raises [AttributeError] or [ValueError] after that one request, and so
    does the loop body; nothing is stored. *)
Theorem unreadable_page_raises {F : Type} (w : World F) (i : Z) (s : state F)
        (response : Response) :
  network w (trace s) (Get (writeup_url w i) None true) = Ok response ->
  status_code response = 200 ->
  readable w (html_parser w (content response)) = false ->
  let s1 := sent (Get (writeup_url w i) None true) s in
  exists e, (e = AttributeError \/ e = ValueError)
            /\ scrape_writeup_info w i s = (Raise e, s1)
            /\ crawl w i s = (Raise e, s1)
            /\ db s1 = db s.
Proof.
  intros Hget Hstatus Hreadable s1.
  destruct (scrape_writeup_info_unreadable w i s response Hget Hstatus Hreadable)
    as [e [He Hinfo]].
  exists e. split; [exact He |]. split; [exact Hinfo |]. split; [| reflexivity].
  unfold crawl. unfold bind. rewrite Hinfo. reflexivity.
Qed.

Lemma unreadable_page_raises_witness :
  exists e, (e = AttributeError \/ e = ValueError)
            /\ scrape_writeup_info origin_notice 1 no_requests
               = (Raise e, sent (Get "https://ctftime.org/writeup/1" None true) no_requests)
            /\ crawl origin_notice 1 no_requests
               = (Raise e, sent (Get "https://ctftime.org/writeup/1" None true) no_requests)
            /\ db (sent (Get "https://ctftime.org/writeup/1" None true) no_requests)
               = db no_requests.
Proof.
  exact (unreadable_page_raises origin_notice 1 no_requests
           (page 200 "Down for maintenance")
           ltac:(vm_compute; reflexivity) ltac:(reflexivity)
           ltac:(vm_compute; reflexivity)).
Defined.

(** *** What a run leaves behind *)

Lemma deleted_writeup_is_stored_state {F : Type} (w : World F) (i : Z)
      (s : state F) (response : Response) :
  network w (trace s) (Get (writeup_url w i) None true) = Ok response ->
  status_code response = 404 ->
  scrape_writeup_info w i s
  = (Ok (Some (deleted_writeup w i), 404), sent (Get (writeup_url w i) None true) s)
  /\ w_id (deleted_writeup w i) = i.
Proof.
  intros Hget Hstatus. split; [| reflexivity].
  unfold scrape_writeup_info. run. rewrite Hget, Hstatus. reflexivity.
Qed.

Lemma scrape_blog_state {F : Type} (w : World F) (blog_url : string)
      (s s2 : state F) (r : result (string * string)) :
  scrape_blog w blog_url s = (r, s2) ->
  s2 = s \/ s2 = sent (Head (probed blog_url)) s.
Proof.
  destruct (truthy blog_url) eqn:Hlink.
  - destruct (network w (trace s) (Head (probed blog_url))) as [probe | e] eqn:Hprobe.
    + rewrite (scrape_blog_answered w _ s probe Hlink Hprobe).
      intros H. injection H as _ <-. now right.
    + rewrite (scrape_blog_failed w _ s e Hlink Hprobe).
      intros H. injection H as _ <-. now right.
  - rewrite (proj2 (scrape_blog_no_link w _ s Hlink)).
    intros H. injection H as _ <-. now left.
Qed.

(** What [scrape_writeup_info] does to the state, and what it returns with
    which code. *)
Lemma scrape_writeup_info_effect {F : Type} (w : World F) (i : Z) (s s' : state F)
      (r : result (option (writeup F) * Z)) :
  scrape_writeup_info w i s = (r, s') ->
  let s1 := sent (Get (writeup_url w i) None true) s in
  (s' = s1 \/ exists address, s' = sent (Head address) s1)
  /\ match r with
     | Ok (Some x, code) => w_id x = i /\ (code = 200 \/ code = 404)
     | Ok (None, code) => code <> 200 /\ code <> 404
     | Raise _ => True
     end.
Proof.
  intros Hinfo s1.
  destruct (network w (trace s) (Get (writeup_url w i) None true))
    as [response | e] eqn:Hget.
  - destruct (Z.eq_dec (status_code response) 404) as [H404 | H404].
    + destruct (deleted_writeup_is_stored_state w i s response Hget H404) as [H _].
      rewrite H in Hinfo. injection Hinfo as <- <-.
      split; [now left |]. split; [reflexivity | now right].
    + destruct (Z.eq_dec (status_code response) 200) as [H200 | H200].
      * destruct (readable w (html_parser w (content response))) eqn:Hreadable.
        -- destruct (scrape_blog w (blog_link (html_parser w (content response))) s1)
             as [rb s2] eqn:Hblog.
           destruct (scrape_blog_returns w
                       (blog_link (html_parser w (content response))) s1)
             as [c [u [s3 Hreturns]]].
           rewrite Hblog in Hreturns. injection Hreturns as -> ->.
           rewrite (scrape_writeup_info_record w i s s3 response (c, u)
                      Hget H200 Hreadable Hblog) in Hinfo.
           injection Hinfo as <- <-.
           split.
           ++ destruct (scrape_blog_state w _ s1 s3 _ Hblog) as [-> | ->];
                [now left | right; eexists; reflexivity].
           ++ split; [reflexivity | now left].
        -- destruct (scrape_writeup_info_unreadable w i s response Hget H200 Hreadable)
             as [e [_ H]].
           rewrite H in Hinfo. injection Hinfo as <- <-.
           split; [now left | exact I].
      * rewrite (scrape_writeup_info_failed w i s response Hget H404 H200) in Hinfo.
        injection Hinfo as <- <-. split; [now left |]. split; assumption.
  - rewrite (scrape_writeup_info_raised w i s e Hget) in Hinfo.
    injection Hinfo as <- <-. split; [now left | exact I].
Qed.

Lemma crawl_request_more {F : Type} (w : World F) (ids ids' : list Z) (q : request) :
  incl ids ids' -> crawl_request w ids q -> crawl_request w ids' q.
Proof.
  intros Hincl. destruct q as [url [t |] [|] | url]; cbn; try tauto.
  intros [i [Hi Hurl]]. exists i. split; [apply Hincl, Hi | exact Hurl].
Qed.

(** What one turn of the loop does: it asks for the detail page, perhaps
    probes a blog, and stores nothing or one record with the identifier it
    was given. *)
Lemma crawl_effect {F : Type} (w : World F) (i : Z) (s s' : state F) (r : result unit) :
  crawl w i s = (r, s') ->
  exists t new,
    trace s' = trace s ++ t
    /\ Forall (crawl_request w [i]) t
    /\ database_exists (db s') = database_exists (db s)
    /\ documents (db s') = documents (db s) ++ new
    /\ (new = [] \/ exists x, new = [x] /\ w_id x = i).
Proof.
  unfold crawl. unfold bind.
  destruct (scrape_writeup_info w i s) as [r0 s0] eqn:Hinfo.
  destruct (scrape_writeup_info_effect w i s s0 r0 Hinfo) as [Hstate Hresult].
  assert (Htrace : exists t, trace s0 = trace s ++ t
                             /\ Forall (crawl_request w [i]) t /\ db s0 = db s).
  { destruct Hstate as [-> | [address ->]].
    - exists [Get (writeup_url w i) None true]. split; [reflexivity |].
      split; [| reflexivity]. constructor; [| constructor].
      exists i. split; [now left | reflexivity].
    - exists [Get (writeup_url w i) None true; Head address].
      split; [cbn [sent trace]; now rewrite <- app_assoc |].
      split; [| reflexivity]. constructor; [| constructor; [exact I | constructor]].
      exists i. split; [now left | reflexivity]. }
  destruct Htrace as [t [Ht [Hrequests Hdb]]].
  destruct r0 as [[[x |] code] | e].
  - destruct Hresult as [Hid Hcode].
    assert (Hstored : (if code =? 200 then insert (Some x)
                       else if code =? 404 then insert (Some x) else ret tt) s0
                      = (Ok tt, stored x s0)).
    { destruct Hcode as [-> | ->]; reflexivity. }
    rewrite Hstored. intros H. injection H as _ <-.
    exists t, [x]. cbn [stored trace db database_exists documents].
    rewrite Hdb. repeat split; try assumption. right. now exists x.
  - destruct Hresult as [H200 H404].
    apply Z.eqb_neq in H200, H404. rewrite H200, H404.
    intros H. injection H as _ <-.
    exists t, []. rewrite Hdb, app_nil_r. repeat split; try assumption. now left.
  - intros H. injection H as _ <-.
    exists t, []. rewrite Hdb, app_nil_r. repeat split; try assumption. now left.
Qed.

(** What the loop over [ids] does. *)
Lemma for_each_crawl_effect {F : Type} (w : World F) (ids : list Z)
      (s s' : state F) (r : result unit) :
  for_each ids (crawl w) s = (r, s') ->
  exists t new,
    trace s' = trace s ++ t
    /\ Forall (crawl_request w ids) t
    /\ database_exists (db s') = database_exists (db s)
    /\ documents (db s') = documents (db s) ++ new
    /\ incl (map w_id new) ids
    /\ (StronglySorted Z.lt ids -> StronglySorted Z.lt (map w_id new)).
Proof.
  revert s. induction ids as [| i ids IH]; intros s.
  - cbn. intros H. injection H as _ <-.
    exists [], []. rewrite !app_nil_r. repeat split; try constructor.
    intros x Hx. exact Hx.
  - cbn [for_each]. unfold bind.
    destruct (crawl w i s) as [r0 s0] eqn:Hcrawl.
    destruct (crawl_effect w i s s0 r0 Hcrawl)
      as [t0 [new0 [Ht0 [Hq0 [He0 [Hd0 Hnew0]]]]]].
    assert (Hq0' : Forall (crawl_request w (i :: ids)) t0).
    { eapply Forall_impl; [| exact Hq0]. intros q.
      apply crawl_request_more. intros j [<- | []]. now left. }
    assert (Hids0 : incl (map w_id new0) (i :: ids)).
    { destruct Hnew0 as [-> | [x [-> Hx]]]; intros j Hj; [destruct Hj |].
      destruct Hj as [<- | []]. left. now symmetry. }
    destruct r0 as [[] | e].
    + intros Hrest.
      destruct (IH s0 Hrest) as [t1 [new1 [Ht1 [Hq1 [He1 [Hd1 [Hincl1 Hsorted1]]]]]]].
      exists (t0 ++ t1), (new0 ++ new1).
      split; [rewrite Ht1, Ht0; now rewrite app_assoc |].
      split.
      { apply Forall_app. split; [exact Hq0' |].
        eapply Forall_impl; [| exact Hq1]. intros q.
        apply crawl_request_more. intros j Hj. now right. }
      split; [now rewrite He1 |].
      split; [rewrite Hd1, Hd0; now rewrite app_assoc |].
      split.
      { rewrite map_app. apply incl_app; [exact Hids0 |].
        intros j Hj. right. apply Hincl1, Hj. }
      intros Hsorted. inversion Hsorted as [| ? ? Htail Hhead]; subst.
      rewrite map_app.
      destruct Hnew0 as [-> | [x [-> Hx]]]; [exact (Hsorted1 Htail) |].
      cbn [map app]. constructor; [exact (Hsorted1 Htail) |].
      apply Forall_forall. intros j Hj. rewrite Hx.
      rewrite Forall_forall in Hhead. apply Hhead, Hincl1, Hj.
    + intros H. injection H as _ <-.
      exists t0, new0. repeat split; try assumption.
      intros _. destruct Hnew0 as [-> | [x [-> Hx]]]; repeat constructor.
Qed.

Lemma get_latest_writeup_id_state {F : Type} (w : World F) (s s1 : state F)
      (r : result pyval) :
  get_latest_writeup_id w s = (r, s1) ->
  s1 = sent (Get (CTFTIME_URL w) None true) s.
Proof.
  unfold get_latest_writeup_id. run.
  destruct (network w (trace s) _) as [response | e].
  - destruct (negb (status_code response =? 200)).
    + intros H. injection H as _ <-. reflexivity.
    + destruct (select_one _ _) as [element |].
      * destruct (lookup _ _) as [href |].
        -- destruct (Str.to_int _); intros H; injection H as _ <-; reflexivity.
        -- intros H. injection H as _ <-. reflexivity.
      * intros H. injection H as _ <-. reflexivity.
  - intros H. injection H as _ <-. reflexivity.
Qed.

Lemma ensure_index_trace {F : Type} (s : state F) :
  trace (snd (ensure_index s)) = trace s.
Proof. unfold ensure_index. destruct (negb _); reflexivity. Qed.

(** The run after a discovery that returned an integer. *)
Lemma main_loop {F : Type} (w : World F) (s s1 : state F) (L : Z) :
  get_latest_writeup_id w (snd (ensure_index s)) = (Ok (PyInt L), s1) ->
  main w s = for_each (missing_ids (L + 1) (stored_ids s)) (crawl w) s1.
Proof.
  intros Hlatest. unfold main. unfold bind at 1. rewrite ensure_index_ok.
  unfold bind at 1. rewrite Hlatest. run. cbn [py_add]. unfold stored_ids.
  rewrite (get_latest_writeup_id_db _ _ _ _ Hlatest), ensure_index_documents.
  reflexivity.
Qed.

(** The run after a discovery that did not return an integer. *)
Lemma main_stops {F : Type} (w : World F) (s s1 : state F) (r : result pyval) :
  get_latest_writeup_id w (snd (ensure_index s)) = (r, s1) ->
  (forall L, r <> Ok (PyInt L)) ->
  exists e, main w s = (Raise e, s1).
Proof.
  intros Hlatest Hr. unfold main. unfold bind at 1. rewrite ensure_index_ok.
  unfold bind at 1. rewrite Hlatest.
  destruct r as [[| L | x | x] | e].
  - exists TypeError. reflexivity.
  - exfalso. exact (Hr L eq_refl).
  - exists TypeError. reflexivity.
  - exists TypeError. reflexivity.
  - exists e. reflexivity.
Qed.

(** What a run does, whatever the world: one request for the landing page,
    then requests of the loop over the identifiers [ids] it found missing;
    the documents it adds come after the ones that were there, in
    ascending order of identifier, with identifiers among [ids]. *)
Lemma main_effect {F : Type} (w : World F) (s s' : state F) (r : result unit) :
  main w s = (r, s') ->
  exists ids t new,
    trace s' = trace s ++ Get (CTFTIME_URL w) None true :: t
    /\ Forall (crawl_request w ids) t
    /\ documents (db s') = documents (db s) ++ new
    /\ incl (map w_id new) ids
    /\ StronglySorted Z.lt (map w_id new)
    /\ (forall L s1,
           get_latest_writeup_id w (snd (ensure_index s)) = (Ok (PyInt L), s1) ->
           ids = missing_ids (L + 1) (stored_ids s))
    /\ (forall i, In i ids -> 1 <= i /\ ~ In i (stored_ids s)).
Proof.
  intros Hmain.
  destruct (get_latest_writeup_id w (snd (ensure_index s))) as [r0 s1] eqn:Hlatest.
  pose proof (get_latest_writeup_id_state w _ s1 r0 Hlatest) as Hs1.
  assert (Htrace1 : trace s1 = trace s ++ [Get (CTFTIME_URL w) None true]).
  { rewrite Hs1. cbn [sent trace]. now rewrite ensure_index_trace. }
  assert (Hdocs1 : documents (db s1) = documents (db s)).
  { rewrite Hs1. cbn [sent db]. apply ensure_index_documents. }
  assert (Hcases : (exists L, r0 = Ok (PyInt L)) \/ (forall L, r0 <> Ok (PyInt L))).
  { destruct r0 as [[| L | x | x] | e];
      solve [left; eexists; reflexivity | right; intros L' H; discriminate H]. }
  destruct Hcases as [[L ->] | Hother].
  - rewrite (main_loop w s s1 L Hlatest) in Hmain.
    destruct (for_each_crawl_effect w _ s1 s' r Hmain)
      as [t [new [Ht [Hq [_ [Hd [Hincl Hsorted]]]]]]].
    exists (missing_ids (L + 1) (stored_ids s)), t, new.
    split; [rewrite Ht, Htrace1; now rewrite <- app_assoc |].
    split; [exact Hq |].
    split; [rewrite Hd, Hdocs1; reflexivity |].
    split; [exact Hincl |].
    split; [apply Hsorted, missing_ids_ascending |].
    split.
    + intros L' s1' H. injection H as <- _. reflexivity.
    + intros i Hi. apply missing_ids_spec in Hi. split; [lia | tauto].
  - destruct (main_stops w s s1 r0 Hlatest Hother) as [e He].
    rewrite He in Hmain. injection Hmain as _ <-.
    exists [], [], [].
    split; [exact Htrace1 |]. split; [constructor |].
    split; [rewrite Hdocs1; now rewrite app_nil_r |].
    split; [intros x Hx; exact Hx |]. split; [constructor |].
    split.
    + intros L s1' H. injection H as -> _. exfalso. exact (Hother L eq_refl).
    + intros i [].
Qed.

Lemma ascending_nodup (l : list Z) : StronglySorted Z.lt l -> NoDup l.
Proof.
  induction 1 as [| x l Hl IH Hx]; constructor; [| exact IH].
  intros Hin. rewrite Forall_forall in Hx. specialize (Hx x Hin). lia.
Qed.

Lemma nodup_append (l l' : list Z) :
  NoDup l -> NoDup l' -> (forall x, In x l' -> ~ In x l) -> NoDup (l ++ l').
Proof.
  intros Hl Hl' Hdisjoint. induction Hl as [| x l Hx Hl IH]; [exact Hl' |].
  cbn [app]. constructor.
  - intros Hin. apply in_app_or in Hin. destruct Hin as [Hin | Hin].
    + exact (Hx Hin).
    + apply (Hdisjoint x Hin). now left.
  - apply IH. intros y Hy Hin. apply (Hdisjoint y Hy). now right.
Qed.

(** X10.  A run, however it ends, only adds documents after the ones that
    were stored: the added documents are in strictly ascending order of
    identifier, and each identifier is at least 1, was not stored before,
    and is at most the latest identifier when one was discovered. *)
Theorem run_only_appends {F : Type} (w : World F) (s s' : state F) (r : result unit) :
  main w s = (r, s') ->
  exists new,
    documents (db s') = documents (db s) ++ new
    /\ StronglySorted Z.lt (map w_id new)
    /\ forall i, In i (map w_id new) ->
                 1 <= i /\ ~ In i (stored_ids s)
                 /\ forall L s1,
                      get_latest_writeup_id w (snd (ensure_index s))
                      = (Ok (PyInt L), s1) ->
                      i <= L.
Proof.
  intros Hmain.
  destruct (main_effect w s s' r Hmain)
    as [ids [t [new [_ [_ [Hdocs [Hincl [Hsorted [Hgap Hids]]]]]]]]].
  exists new. split; [exact Hdocs |]. split; [exact Hsorted |].
  intros i Hi. apply Hincl in Hi.
  split; [apply (Hids i Hi) |]. split; [apply (Hids i Hi) |].
  intros L s1 Hlatest. rewrite (Hgap L s1 Hlatest) in Hi.
  apply missing_ids_spec in Hi. lia.
Qed.

Lemma run_only_appends_witness :
  exists new,
    documents (db (snd (main origin_site no_requests))) = [] ++ new
    /\ StronglySorted Z.lt (map w_id new).
Proof.
  destruct (run_only_appends origin_site no_requests
              (snd (main origin_site no_requests)) (Ok tt)
              ltac:(vm_compute; reflexivity))
    as [new [Hdocs [Hsorted _]]].
  exists new. split; [exact Hdocs | exact Hsorted].
Defined.

(** X11.  If no identifier is stored twice before a run, none is stored
    twice after it, however the run ends. *)
Theorem run_keeps_identifiers_distinct {F : Type} (w : World F) (s s' : state F)
        (r : result unit) :
  NoDup (stored_ids s) ->
  main w s = (r, s') ->
  NoDup (stored_ids s').
Proof.
  intros Hnodup Hmain.
  destruct (main_effect w s s' r Hmain)
    as [ids [t [new [_ [_ [Hdocs [Hincl [Hsorted [_ Hids]]]]]]]]].
  unfold stored_ids in *. rewrite Hdocs, map_app.
  apply nodup_append; [exact Hnodup | exact (ascending_nodup _ Hsorted) |].
  intros i Hi. apply (Hids i (Hincl i Hi)).
Qed.

Lemma run_keeps_identifiers_distinct_witness :
  NoDup (stored_ids (snd (main origin_site no_requests))).
Proof.
  apply (run_keeps_identifiers_distinct origin_site no_requests _ (Ok tt)).
  - constructor.
  - vm_compute. reflexivity.
Defined.

(** X12.  The requests of a run, however it ends: first the landing page;
    after it only header requests and requests, without timeout and with
    certificate checks, for detail pages of identifiers that are at least
    1 and were not stored.  No blog or repository page is ever asked for
    with [GET], and no stored identifier is asked for again. *)
Theorem run_requests {F : Type} (w : World F) (s s' : state F) (r : result unit) :
  main w s = (r, s') ->
  exists ids t,
    trace s' = trace s ++ Get (CTFTIME_URL w) None true :: t
    /\ Forall (crawl_request w ids) t
    /\ forall i, In i ids -> 1 <= i /\ ~ In i (stored_ids s).
Proof.
  intros Hmain.
  destruct (main_effect w s s' r Hmain)
    as [ids [t [new [Htrace [Hrequests [_ [_ [_ [_ Hids]]]]]]]]].
  exists ids, t. repeat split; try assumption; apply (Hids i H).
Qed.

Lemma run_requests_witness :
  exists ids t,
    trace (snd (main origin_site no_requests))
    = [] ++ Get "https://ctftime.org" None true :: t
    /\ Forall (crawl_request origin_site ids) t
    /\ forall i, In i ids -> 1 <= i /\ ~ In i [].
Proof.
  exact (run_requests origin_site no_requests
           (snd (main origin_site no_requests)) (Ok tt)
           ltac:(vm_compute; reflexivity)).
Defined.

(** X13.  When every identifier from 1 to the latest one is stored (or the
    latest one is below 1), the run sends the request for the landing page
    and ends there: nothing else is requested and nothing is stored. *)
Theorem nothing_missing_nothing_done {F : Type} (w : World F) (s s1 : state F) (L : Z) :
  get_latest_writeup_id w (snd (ensure_index s)) = (Ok (PyInt L), s1) ->
  (forall i, 1 <= i <= L -> In i (stored_ids s)) ->
  main w s = (Ok tt, s1)
  /\ trace s1 = trace s ++ [Get (CTFTIME_URL w) None true]
  /\ documents (db s1) = documents (db s).
Proof.
  intros Hlatest Hall.
  assert (Hgap : missing_ids (L + 1) (stored_ids s) = []).
  { destruct (missing_ids (L + 1) (stored_ids s)) as [| i l] eqn:Hgap; [reflexivity |].
    assert (Hi : In i (missing_ids (L + 1) (stored_ids s))) by (rewrite Hgap; now left).
    apply missing_ids_spec in Hi. destruct Hi as [Hrange Hnew].
    exfalso. apply Hnew, Hall. lia. }
  split; [rewrite (main_loop w s s1 L Hlatest), Hgap; reflexivity |].
  rewrite (get_latest_writeup_id_state w _ s1 _ Hlatest). cbn [sent trace db].
  split; [now rewrite ensure_index_trace | apply ensure_index_documents].
Qed.

Lemma nothing_missing_nothing_done_witness :
  main origin_site all_stored
  = (Ok tt, mkState [Get "https://ctftime.org" None true] (db all_stored)).
Proof.
  exact (proj1 (nothing_missing_nothing_done origin_site all_stored
                  (mkState [Get "https://ctftime.org" None true] (db all_stored)) 3
                  ltac:(vm_compute; reflexivity)
                  ltac:(intros i Hi; simpl; lia))).
Defined.

Lemma for_each_raises {F A : Type} (body : A -> M F unit) (done rest : list A)
      (x : A) (s s1 s2 : state F) (e : exn) :
  for_each done body s = (Ok tt, s1) ->
  body x s1 = (Raise e, s2) ->
  for_each (done ++ x :: rest) body s = (Raise e, s2).
Proof.
  revert s. induction done as [| y done IH]; intros s Hdone Hx.
  - cbn in Hdone. injection Hdone as <-. cbn [app for_each]. unfold bind.
    rewrite Hx. reflexivity.
  - cbn [app for_each] in *. unfold bind in *.
    destruct (body y s) as [[[] | e'] s0]; [| discriminate Hdone].
    exact (IH s0 Hdone Hx).
Qed.

(** X14.  The loop has no handler of its own: when the request for the
    detail page of an identifier raises, the loop ends there with that
    exception, the identifiers after it are not asked for, and the store
    is as the identifiers before it left it. *)
Theorem loop_stops_at_first_exception {F : Type} (w : World F)
        (done rest : list Z) (i : Z) (s s1 : state F) (e : exn) :
  for_each done (crawl w) s = (Ok tt, s1) ->
  network w (trace s1) (Get (writeup_url w i) None true) = Raise e ->
  for_each (done ++ i :: rest) (crawl w) s
  = (Raise e, sent (Get (writeup_url w i) None true) s1).
Proof.
  intros Hdone Hget. apply (for_each_raises (crawl w) done rest i s s1 _ e Hdone).
  unfold crawl. unfold bind. rewrite (scrape_writeup_info_raised w i s1 e Hget).
  reflexivity.
Qed.

Lemma loop_stops_at_first_exception_witness :
  for_each [1; 2; 3] (crawl origin_down) no_requests
  = (Raise ConnectionError,
     mkState [Get "https://ctftime.org/writeup/1" None true] (mkMongo false [])).
Proof.
  exact (loop_stops_at_first_exception origin_down [] [2; 3] 1 no_requests no_requests
           ConnectionError ltac:(reflexivity) ltac:(vm_compute; reflexivity)).
Defined.

(** *** Discovery on a page that is not as expected *)



Lemma split_go_nonempty (sep : string) (skip : nat) (cur s : string) :
  Str.split_go sep skip cur s <> [].
Proof.
  revert skip cur. induction s as [| c s IH]; intros skip cur; cbn [Str.split_go].
  - discriminate.
  - destruct skip; [| apply IH].
    destruct (String.prefix sep (String c s)); [discriminate | apply IH].
Qed.

Lemma last_cons_nonempty {A : Type} (x d : A) (l : list A) :
  l <> [] -> last (x :: l) d = last l d.
Proof. destruct l; [congruence | reflexivity]. Qed.

(** The last piece of a split of a string that ends with the separating
    character is empty. *)
Lemma split_go_trailing (c : ascii) (s cur : string) :
  last (Str.split_go (String c EmptyString) 0 cur (s ++ String c EmptyString))
       EmptyString
  = EmptyString.
Proof.
  revert cur. induction s as [| d s IH]; intros cur.
  - cbn [append Str.split_go]. rewrite prefix_char, Ascii.eqb_refl. reflexivity.
  - cbn [append Str.split_go]. rewrite prefix_char.
    destruct (Ascii.eqb c d).
    + cbn [String.length Nat.sub]. rewrite last_cons_nonempty; [apply IH |].
      apply split_go_nonempty.
    + apply IH.
Qed.

(** X16.  When the link to the latest write-up ends with a slash, the
    piece after the last slash is empty and [int] refuses it: the
    discovery raises [ValueError]. *)
Theorem trailing_slash_raises {F : Type} (w : World F) (s : state F)
        (response : Response) (element : node) (href : string) :
  network w (trace s) (Get (CTFTIME_URL w) None true) = Ok response ->
  status_code response = 200 ->
  select_one sel_latest (html_parser w (content response)) = Some element ->
  lookup "href" (attrs_of element) = Some (href ++ "/")%string ->
  get_latest_writeup_id w s
  = (Raise ValueError, sent (Get (CTFTIME_URL w) None true) s).
Proof.
  intros Hget Hstatus Hselect Hhref.
  unfold get_latest_writeup_id. run.
  rewrite Hget, Hstatus, Hselect, Hhref. cbn [Z.eqb Pos.eqb negb].
  unfold Str.split. rewrite split_go_trailing. reflexivity.
Qed.

Lemma trailing_slash_raises_witness :
  get_latest_writeup_id origin_slash no_requests
  = (Raise ValueError, sent (Get "https://ctftime.org" None true) no_requests).
Proof.
  exact (trailing_slash_raises origin_slash no_requests (page 200 slash_landing_html)
           (Tag "a" [("href", "/writeup/3/")] [Text "read"]) "/writeup/3"
           ltac:(vm_compute; reflexivity) ltac:(reflexivity)
           ltac:(vm_compute; reflexivity) ltac:(reflexivity)).
Defined.

(** *** The loops over the tree *)

Lemma forallb_flat_map {A B : Type} (p : B -> bool) (f : A -> list B) (l : list A) :
  Forall (fun x => forallb p (f x) = true) l ->
  forallb p (flat_map f l) = true.
Proof.
  induction 1 as [| x l Hx _ IH]; [reflexivity |].
  cbn [flat_map]. rewrite forallb_app, Hx, IH. reflexivity.
Qed.

Lemma forallb_map_all {A : Type} (p : A -> bool) (f : A -> A) (l : list A) :
  Forall (fun x => p (f x) = true) l -> forallb p (map f l) = true.
Proof.
  induction 1 as [| x l Hx _ IH]; [reflexivity |].
  cbn [map forallb]. rewrite Hx, IH. reflexivity.
Qed.

Lemma replace_anchors_no_anchor (n : node) :
  forallb no_anchor (replace_anchors n) = true.
Proof.
  induction n as [s | s | k s | nm a cs IH] using node_induction; try reflexivity.
  cbn [replace_anchors].
  pose proof (forallb_flat_map no_anchor replace_anchors cs IH) as Hcs.
  destruct (String.eqb nm "a") eqn:Hname; [exact Hcs |].
  cbn [forallb no_anchor]. rewrite Hname, Hcs. reflexivity.
Qed.

Lemma replace_breaks_no_break (n : node) : no_break (replace_breaks n) = true.
Proof.
  induction n as [s | s | k s | nm a cs IH] using node_induction; try reflexivity.
  cbn [replace_breaks]. destruct (String.eqb nm "br") eqn:Hname; [reflexivity |].
  cbn [no_break]. rewrite Hname. cbn [negb andb].
  apply forallb_map_all, IH.
Qed.

Lemma replace_breaks_keeps_no_anchor (n : node) :
  no_anchor n = true -> no_anchor (replace_breaks n) = true.
Proof.
  induction n as [s | s | k s | nm a cs IH] using node_induction; try reflexivity.
  cbn [no_anchor replace_breaks]. intros H.
  apply andb_prop in H. destruct H as [Hname Hcs].
  destruct (String.eqb nm "br"); [reflexivity |].
  cbn [no_anchor]. rewrite Hname. cbn [andb].
  apply forallb_map_all. rewrite forallb_forall in Hcs.
  rewrite Forall_forall in *. intros c Hc. exact (IH c Hc (Hcs c Hc)).
Qed.

(** X17.  After the two loops of [scrape_writeup_info] over the tree, no
    anchor element and no line-break element is left in it, whatever the
    page was. *)
Theorem description_tree_is_flat (parser : soup) :
  let parser' := map replace_breaks (flat_map replace_anchors parser) in
  forallb no_anchor parser' = true /\ forallb no_break parser' = true.
Proof.
  intros parser'. unfold parser'. split.
  - apply forallb_map_all. apply Forall_forall. intros n Hn.
    apply replace_breaks_keeps_no_anchor.
    assert (H : forallb no_anchor (flat_map replace_anchors parser) = true).
    { apply forallb_flat_map, Forall_forall. intros m _.
      apply replace_anchors_no_anchor. }
    rewrite forallb_forall in H. exact (H n Hn).
  - apply forallb_map_all, Forall_forall. intros n _. apply replace_breaks_no_break.
Qed.

Lemma replace_both_text (want : option string) (n : node) :
  String.concat EmptyString
    (map (strings want) (map replace_breaks (replace_anchors n)))
  = strings want (replace_breaks n).
Proof.
  induction n as [s | s | k s | nm a cs IH] using node_induction;
    try (cbn [replace_anchors replace_breaks map]; apply joined_cons_nil).
  assert (Hcs : String.concat EmptyString
                  (map (strings want)
                       (map replace_breaks (flat_map replace_anchors cs)))
                = String.concat EmptyString
                    (map (strings want) (map replace_breaks cs))).
  { induction IH as [| c cs Hc _ IHcs]; [reflexivity |].
    cbn [flat_map map]. rewrite !map_app, joined_app, joined_cons, Hc, IHcs.
    reflexivity. }
  cbn [replace_anchors replace_breaks].
  destruct (String.eqb_spec nm "a") as [-> | Hanchor].
  - change (String.eqb "a" "br") with false. cbn iota. cbn [strings]. exact Hcs.
  - cbn [map replace_breaks].
    destruct (String.eqb nm "br"); [apply joined_cons_nil |].
    rewrite joined_cons_nil. cbn [strings]. rewrite Hcs. reflexivity.
Qed.

(** X18.  Replacing the anchors by their children does not change the
    text of the page: the link targets were no part of it and the labels
    stay.  The same holds under the loop over the line breaks: the text
    after both loops is the text after the second loop alone. *)
Theorem anchors_keep_the_text (parser : soup) :
  soup_text (flat_map replace_anchors parser) = soup_text parser
  /\ soup_text (map replace_breaks (flat_map replace_anchors parser))
     = soup_text (map replace_breaks parser).
Proof.
  split; [exact (replace_anchors_soup_text parser) |].
  unfold soup_text. induction parser as [| n parser IH]; [reflexivity |].
  cbn [flat_map map]. rewrite !map_app, joined_app, joined_cons.
  rewrite replace_both_text, IH. reflexivity.
Qed.

Lemma sequence_ok {A : Type} (l : list (result A)) (r : list A) :
  sequence l = Ok r -> Forall2 (fun x y => x = Ok y) l r.
Proof.
  revert r. induction l as [| x l IH]; intros r; cbn [sequence].
  - intros H. injection H as <-. constructor.
  - destruct x as [a | e]; [| discriminate].
    destruct (sequence l) as [r' | e]; [| discriminate].
    intros H. injection H as <-. constructor; [reflexivity | now apply IH].
Qed.

Lemma decompose_pieces_no_data (cs : list node) (pieces : list (list node)) :
  Forall (fun c => forall l, decompose_data c = Ok l -> forallb no_data l = true) cs ->
  sequence (map decompose_data cs) = Ok pieces ->
  forallb no_data (List.concat pieces) = true.
Proof.
  intros Hcs Hseq. apply sequence_ok in Hseq. revert pieces Hseq.
  induction Hcs as [| c cs Hc _ IH]; intros pieces Hseq; cbn [map] in Hseq.
  - inversion Hseq. reflexivity.
  - inversion Hseq as [| ? piece ? rest Hpiece Hrest]; subst.
    cbn [List.concat]. rewrite forallb_app, (Hc piece Hpiece), (IH rest Hrest).
    reflexivity.
Qed.

Lemma decompose_data_no_data (n : node) (l : list node) :
  decompose_data n = Ok l -> forallb no_data l = true.
Proof.
  revert l. induction n as [s | s | k s | nm a cs IH] using node_induction; intros l.
  - intros H. injection H as <-. reflexivity.
  - intros H. injection H as <-. reflexivity.
  - intros H. injection H as <-. reflexivity.
  - cbn [decompose_data]. destruct (embeds_data a) eqn:Hdata.
    + destruct (existsb is_tag cs); [discriminate |].
      intros H. injection H as <-. reflexivity.
    + destruct (sequence (map decompose_data cs)) as [pieces | e] eqn:Hseq;
        [| discriminate].
      intros H. injection H as <-.
      cbn [forallb no_data]. rewrite Hdata. cbn [negb andb].
      rewrite (decompose_pieces_no_data cs pieces IH Hseq). reflexivity.
Qed.

(** X19.  When the loop that takes out the elements with inline data ends
    without raising, no element of the tree it leaves has a [src] that
    starts with [data]. *)
Theorem decomposed_tree_has_no_data (parser parser' : soup) :
  decompose_all parser = Ok parser' -> forallb no_data parser' = true.
Proof.
  unfold decompose_all.
  destruct (sequence (map decompose_data parser)) as [pieces | e] eqn:Hseq;
    [| discriminate].
  intros H. injection H as <-.
  apply (decompose_pieces_no_data parser pieces); [| exact Hseq].
  apply Forall_forall. intros n _ l. apply decompose_data_no_data.
Qed.

Lemma decomposed_tree_has_no_data_witness :
  decompose_all inline_data = Ok [Tag "p" [] [Text "a"; Text "b"]]
  /\ forallb no_data [Tag "p" [] [Text "a"; Text "b"]] = true.
Proof.
  split; [reflexivity |].
  exact (decomposed_tree_has_no_data inline_data _ ltac:(reflexivity)).
Defined.

(** *** The gap from one run to the next *)

Lemma empty_when_no_member {A : Type} (l : list A) : (forall x, ~ In x l) -> l = [].
Proof. destruct l as [| x l]; [reflexivity |]. intros H. exfalso. apply (H x). now left. Qed.

(** X20.  Once every identifier of the gap is stored, beside the ones that
    were stored already, the gap for the same latest identifier is
    empty. *)
Theorem gap_is_empty_once_stored (stop : Z) (crawled : list Z) :
  missing_ids stop (crawled ++ missing_ids stop crawled) = [].
Proof.
  apply empty_when_no_member. intros i Hi.
  apply missing_ids_spec in Hi. destruct Hi as [Hrange Hnew].
  apply Hnew, in_or_app. right. apply missing_ids_spec. split; [exact Hrange |].
  intros Hin. apply Hnew, in_or_app. now left.
Qed.

Lemma offsets_shift (lo : Z) (a b : nat) :
  map (fun k => lo + Z.of_nat k) (seq a b)
  = map (fun k => lo + Z.of_nat a + Z.of_nat k) (seq 0 b).
Proof.
  revert lo a. induction b as [| b IH]; intros lo a; [reflexivity |].
  cbn [seq map]. f_equal; [lia |].
  rewrite (IH lo (S a)), (IH (lo + Z.of_nat a) 1%nat).
  apply map_ext. intros k. lia.
Qed.

Lemma py_range_split (lo mid hi : Z) :
  lo <= mid <= hi -> py_range lo hi = py_range lo mid ++ py_range mid hi.
Proof.
  intros H. unfold py_range.
  replace (Z.to_nat (hi - lo)) with (Z.to_nat (mid - lo) + Z.to_nat (hi - mid))%nat
    by lia.
  rewrite seq_app, map_app. f_equal.
  rewrite offsets_shift. apply map_ext. intros k. lia.
Qed.

(** X21.  When the latest identifier grows, the gap grows at its end: the
    gap for the larger one is the gap for the smaller one followed by
    identifiers that are not below the smaller bound. *)
Theorem gap_grows_at_the_end (stop stop' : Z) (crawled : list Z) :
  stop <= stop' ->
  exists more,
    missing_ids stop' crawled = missing_ids stop crawled ++ more
    /\ Forall (fun i => stop <= i) more.
Proof.
  intros Hle. destruct (Z_le_gt_dec 1 stop) as [Hone | Hbelow].
  - exists (filter (fun writeup_id => negb (py_in writeup_id crawled))
                   (py_range stop stop')).
    split.
    + unfold missing_ids. rewrite (py_range_split 1 stop stop') by lia.
      apply filter_app.
    + apply Forall_forall. intros i Hi. apply filter_In in Hi.
      destruct Hi as [Hi _]. apply py_range_spec in Hi. lia.
  - exists (missing_ids stop' crawled). split.
    + replace (missing_ids stop crawled) with (@nil Z); [reflexivity |].
      symmetry. apply empty_when_no_member. intros i Hi.
      apply missing_ids_spec in Hi. lia.
    + apply Forall_forall. intros i Hi. apply missing_ids_spec in Hi. lia.
Qed.

Lemma gap_grows_at_the_end_witness :
  exists more, missing_ids 6 [2] = missing_ids 4 [2] ++ more
               /\ Forall (fun i => 4 <= i) more.
Proof. exact (gap_grows_at_the_end 4 6 [2] ltac:(lia)). Defined.

(** *** Links that are not on GitHub *)

Lemma prefix_contains (a b s : string) :
  String.prefix (a ++ b) s = true -> Str.contains b s = true.
Proof.
  revert s. induction a as [| c a IH]; intros s H.
  - cbn [append] in H. destruct s; cbn [Str.contains]; rewrite H; reflexivity.
  - destruct s as [| d s]; [discriminate H |].
    cbn [append String.prefix] in H.
    destruct (Ascii.ascii_dec c d); [| discriminate H].
    cbn [Str.contains]. rewrite (IH s H). apply orb_true_r.
Qed.

Lemma contains_suffix (a b s : string) :
  Str.contains (a ++ b) s = true -> Str.contains b s = true.
Proof.
  induction s as [| d s IH]; cbn [Str.contains]; intros H.
  - rewrite orb_false_r in H. apply (prefix_contains a b EmptyString) in H.
    exact H.
  - apply orb_prop in H. destruct H as [H | H].
    + exact (prefix_contains a b (String d s) H).
    + change (Str.contains b (String d s))
        with (String.prefix b (String d s) || Str.contains b s).
      rewrite (IH H). apply orb_true_r.
Qed.

(** X22.  A link that does not hold [github.com] is left as it is by the
    rewriting of repository links, and no request is sent for it. *)
Theorem other_links_are_left_alone {F : Type} (w : World F) (url : string)
        (s : state F) :
  Str.contains "github.com" url = false ->
  direct_link w url s = (Ok url, s).
Proof.
  intros H. unfold direct_link.
  destruct (Str.contains "gist.github.com" url) eqn:Hgist.
  - apply (contains_suffix "gist." "github.com" url) in Hgist. congruence.
  - rewrite H. reflexivity.
Qed.

Lemma other_links_are_left_alone_witness :
  direct_link repository_host "http://blog.example/post" no_requests
  = (Ok "http://blog.example/post", no_requests).
Proof.
  exact (other_links_are_left_alone repository_host "http://blog.example/post"
           no_requests ltac:(reflexivity)).
Defined.

(** *** Fetching a page *)

Lemma sequence_raise {A : Type} (l : list (result A)) (e : exn) :
  sequence l = Raise e -> In (Raise e) l.
Proof.
  induction l as [| x l IH]; cbn [sequence]; [discriminate |].
  destruct x as [a | e'].
  - destruct (sequence l) as [r | e'']; [discriminate |].
    intros H. injection H as ->. right. now apply IH.
  - intros H. injection H as ->. now left.
Qed.

Lemma decompose_data_raise (n : node) (e : exn) :
  decompose_data n = Raise e -> e = TypeError.
Proof.
  induction n as [s | s | k s | nm a cs IH] using node_induction; try discriminate.
  cbn [decompose_data]. destruct (embeds_data a).
  - destruct (existsb is_tag cs); [| discriminate].
    intros H. now injection H as <-.
  - destruct (sequence (map decompose_data cs)) as [pieces | e'] eqn:Hseq;
      [discriminate |].
    intros H. injection H as ->.
    apply sequence_raise, in_map_iff in Hseq. destruct Hseq as [c [Hc Hin]].
    rewrite Forall_forall in IH. exact (IH c Hin Hc).
Qed.

Lemma blog_text_raise (parser : soup) (e : exn) :
  blog_text parser = Raise e -> e = TypeError.
Proof.
  unfold blog_text, decompose_all.
  destruct (sequence (map decompose_data parser)) as [pieces | e'] eqn:Hseq;
    [discriminate |].
  intros H. injection H as ->.
  apply sequence_raise, in_map_iff in Hseq. destruct Hseq as [n [Hn _]].
  exact (decompose_data_raise n e Hn).
Qed.

(** X23.  [fetch_text] sends one request, with the timeout and without
    certificate checks.  A timeout of the connection or a dead link never
    leaves it: when the request raises one of them the text is empty; so
    it is when the status is not 200. *)
Theorem fetch_text_contains_dead_links {F : Type} (w : World F) (url : string)
        (s s' : state F) (r : result string) :
  fetch_text w url s = (r, s') ->
  let q := Get url (Some (TIMEOUT w)) false in
  s' = sent q s
  /\ r <> Raise ConnectTimeout /\ r <> Raise ConnectionError
  /\ (network w (trace s) q = Raise ConnectTimeout -> r = Ok EmptyString)
  /\ (network w (trace s) q = Raise ConnectionError -> r = Ok EmptyString)
  /\ (forall response, network w (trace s) q = Ok response ->
                       status_code response <> 200 -> r = Ok EmptyString).
Proof.
  unfold fetch_text. run.
  destruct (network w (trace s) (Get url (Some (TIMEOUT w)) false))
    as [response | e] eqn:Hget.
  - destruct (status_code response =? 200) eqn:Hstatus.
    + destruct (blog_text (html_parser w (content response))) as [c | e] eqn:Htext.
      * intros H. injection H as <- <-.
        repeat split; try discriminate.
        intros response' Hr Hne. injection Hr as <-.
        apply Z.eqb_eq in Hstatus. contradiction.
      * rewrite (blog_text_raise _ e Htext).
        intros H. injection H as <- <-.
        repeat split; try discriminate.
        intros response' Hr Hne. injection Hr as <-.
        apply Z.eqb_eq in Hstatus. contradiction.
    + intros H. injection H as <- <-. repeat split; discriminate.
  - destruct e; intros H; injection H as <- <-;
      repeat split; try discriminate; try reflexivity.
Qed.

Lemma fetch_text_contains_dead_links_witness :
  fetch_text origin_down "http://blog.example/gone" no_requests
  = (Ok EmptyString, sent (Get "http://blog.example/gone" (Some 10) false) no_requests).
Proof.
  destruct (fetch_text_contains_dead_links origin_down "http://blog.example/gone"
              no_requests
              (snd (fetch_text origin_down "http://blog.example/gone" no_requests))
              (fst (fetch_text origin_down "http://blog.example/gone" no_requests))
              ltac:(reflexivity))
    as [Hstate [_ [_ [_ [Hdead _]]]]].
  rewrite <- (Hdead ltac:(reflexivity)). reflexivity.
Defined.

(** *** Addresses on the origin site *)

Lemma append_same_prefix (a b c : string) :
  (a ++ b)%string = (a ++ c)%string -> b = c.
Proof.
  induction a as [| x a IH]; cbn [append]; intros H; [exact H |].
  injection H as H. exact (IH H).
Qed.

Lemma to_int_not_nil (z : Z) :
  Z.to_int z <> Decimal.Pos Decimal.Nil /\ Z.to_int z <> Decimal.Neg Decimal.Nil.
Proof.
  destruct z as [| p | p]; cbn [Z.to_int]; split; intros H; try discriminate H;
    injection H as H; exact (DecimalPos.Unsigned.to_uint_nonnil p H).
Qed.

Lemma str_injective (i j : Z) : str i = str j -> i = j.
Proof.
  unfold str. intros H. apply DecimalZ.to_int_inj.
  apply (f_equal NilZero.int_of_string) in H.
  destruct (to_int_not_nil i) as [Hi Hi'], (to_int_not_nil j) as [Hj Hj'].
  rewrite (NilZero.isi _ Hi Hi'), (NilZero.isi _ Hj Hj') in H.
  now injection H.
Qed.

(** X24.  Two identifiers never have the same address on the origin site:
    the address of a record tells its identifier. *)
Theorem writeup_url_is_injective {F : Type} (w : World F) (i j : Z) :
  i <> j -> writeup_url w i <> writeup_url w j.
Proof.
  intros Hne H. apply Hne, str_injective.
  unfold writeup_url in H.
  apply append_same_prefix in H. apply (append_same_prefix "/writeup/") in H.
  exact H.
Qed.

Lemma writeup_url_is_injective_witness :
  writeup_url origin_site 1 <> writeup_url origin_site 10.
Proof. exact (writeup_url_is_injective origin_site 1 10 ltac:(lia)). Defined.

(** *** What each text extraction gives *)













